(** * Utopia VS Code extension: the synchronisation module

    A shallow embedding of the extension-host module that mirrors file
    content, selection and decorations between the Utopia editor and
    VS Code, together with the properties its specification states.

    The module's own state (the two path sets and the last decorations)
    is threaded explicitly. Everything outside the module (the virtual
    file store, the editor windows, the configuration) is a timeline of
    snapshots that the module can only read; what the module asks the
    outside to do is recorded, call by call, in a log. *)

From Stdlib Require Import ZArith Lia Bool List Ascii String.
From stdpp Require Import base decidable option list gmap sets strings.
From Equations Require Import Equations.

Import ListNotations.
Local Open Scope string_scope.
Local Open Scope Z_scope.

(** ** The host editor's value types

    The names are the ones of the [vscode] namespace. *)

Module vscode.

(** [vscode.Position]: a zero-based line and character. *)
Record Position := mkPosition { line : Z; character : Z }.

(** [Position.isBefore]. *)
Definition isBefore (a b : Position) : bool :=
  if line a <? line b then true
  else if line b <? line a then false
  else character a <? character b.

(** [vscode.Range]. [start] is never after [end_] in a range built by
    [newRange], the constructor. *)
Record Range := mkRange { start : Position; end_ : Position }.

(** [new vscode.Range(start, end)]: the constructor orders its arguments. *)
Definition newRange (a b : Position) : Range :=
  if isBefore a b then mkRange a b else mkRange b a.

(** [Range.contains], on a position and on a range. *)
Definition containsPosition (r : Range) (p : Position) : bool :=
  if isBefore p (start r) then false
  else if isBefore (end_ r) p then false
  else true.

Definition contains (r other : Range) : bool :=
  containsPosition r (start other) && containsPosition r (end_ other).

(** [vscode.Selection]: a range that remembers which end is the cursor. *)
Record Selection := newSelection { anchor : Position; active : Position }.

Definition selectionRange (s : Selection) : Range :=
  newRange (anchor s) (active s).

(** [vscode.Uri], reduced to the two components the module reads. *)
Record Uri := mkUri { scheme : string; path : string }.

Record TextDocument := mkTextDocument {
  uri : Uri;
  isDirty : bool;
  getText : string
}.

Record TextEditor := mkTextEditor {
  document : TextDocument;
  selection : Selection;
  visibleRanges : list Range
}.

Record TextEdit := newTextEdit { editRange : Range; newText : string }.

Inductive TextDocumentSaveReason := Manual | AfterDelay | FocusOut.

Inductive TextEditorRevealType :=
| Default | InCenter | InCenterIfOutsideViewport | AtTop.

Inductive TextEditorSelectionChangeKind := Keyboard | Mouse | Command.

Inductive ConfigurationTarget := Global | Workspace | WorkspaceFolder.

(** The render options given to [createTextEditorDecorationType]. *)
Record TextEditorDecorationType := createTextEditorDecorationType {
  borderColor : string;
  borderStyle : string;
  borderWidth : string;
  isWholeLine : bool
}.

Record TextDocumentChangeEvent := mkChangeEvent { changedDocument : TextDocument }.

Record TextDocumentWillSaveEvent := mkWillSaveEvent {
  savedDocument : TextDocument;
  reason : TextDocumentSaveReason
}.

Record TextEditorSelectionChangeEvent := mkSelectionChangeEvent {
  textEditor : TextEditor;
  kind : option TextEditorSelectionChangeKind
}.

(** [vscode.FileSystemError], the four factory functions the module calls. *)
Inductive FileSystemError :=
| FileNotFound (p : string)
| FileIsADirectory (p : string)
| FileNotADirectory (p : string)
| FileExists (p : string).

(** A value read from the configuration: the module tests its [typeof]. *)
Inductive JsValue :=
| JsUndefined
| JsBoolean (b : bool)
| JsNumber (z : Z)
| JsString (s : string).

(** *** How the host applies a text edit

    A position is clamped to the text: past the end of a line it means
    the end of that line, past the last line the end of the text. Lines
    end at a line feed. *)
Definition isLineFeed (c : ascii) : bool := Ascii.eqb c "010"%char.

Fixpoint offsetAt (text : string) (ln ch : Z) : nat :=
  match text with
  | EmptyString => 0%nat
  | String c rest =>
      if ln <=? 0 then
        if (ch <=? 0) || isLineFeed c then 0%nat
        else S (offsetAt rest ln (ch - 1))
      else S (offsetAt rest (if isLineFeed c then ln - 1 else ln) ch)
  end.

Fixpoint takeString (n : nat) (s : string) : string :=
  match n, s with
  | S n', String c rest => String c (takeString n' rest)
  | _, _ => EmptyString
  end.

Fixpoint dropString (n : nat) (s : string) : string :=
  match n, s with
  | S n', String _ rest => dropString n' rest
  | _, _ => s
  end.

Definition replaceRange (r : Range) (replacement text : string) : string :=
  let from := offsetAt text (line (start r)) (character (start r)) in
  let to := offsetAt text (line (end_ r)) (character (end_ r)) in
  takeString from text ++ replacement ++ dropString to text.

Definition applyTextEdits (edits : list TextEdit) (text : string) : string :=
  foldl (fun t e => replaceRange (editRange e) (newText e) t) text edits.

End vscode.

Import vscode.

#[global] Instance Uri_eq_dec : EqDecision Uri.
Proof. solve_decision. Defined.

#[global] Instance Uri_countable : Countable Uri :=
  inj_countable' (fun u => (scheme u, path u)) (fun p => mkUri p.1 p.2)
    (fun u => match u with mkUri _ _ => eq_refl end).

(** ** Values of [utopia-vscode-common] *)

Inductive DecorationRangeType := highlight | selection_.

(** The string a range type is at run time: the key it has in an object. *)
Definition rangeTypeKey (t : DecorationRangeType) : string :=
  match t with
  | highlight => "highlight"
  | selection_ => "selection"
  end.

Record Bounds := mkBounds {
  startLine : Z;
  endLine : Z;
  startCol : Z;
  endCol : Z
}.

Record BoundsInFile := mkBoundsInFile {
  filePath : string;
  boundsOf :> Bounds
}.

Record DecorationRange := mkDecorationRange {
  rangeType : DecorationRangeType;
  boundsInFileOf :> BoundsInFile
}.

Record UtopiaVSCodeConfig := mkConfig { followSelectionEnabled : bool }.

(** Messages the module receives. *)
Inductive ToVSCodeMessage :=
| OPEN_FILE (filePath : string)
| UPDATE_DECORATIONS (decorations : list DecorationRange)
| SELECTED_ELEMENT_CHANGED (boundsInFile : BoundsInFile)
| GET_UTOPIA_VSCODE_CONFIG
| SET_FOLLOW_SELECTION_CONFIG (enabled : bool).

(** Messages the module sends. *)
Inductive FromVSCodeMessage :=
| editorCursorPositionChanged (filePath : string) (ln ch : Z)
| utopiaVSCodeConfigValues (config : UtopiaVSCodeConfig)
| sendInitialData.

(** What [readFileAsUTF8] resolves to. *)
Record StoredFile := mkStoredFile {
  content : string;
  unsavedContent : option string
}.

(** [FSError]: the store's error value. The code is kept as the string it
    is at run time, so that the [default] branch of the translation can be
    reached. *)
Record FSError := mkFSError { fsPath : string; fsCode : string }.

(** A JavaScript [Error], by the template that built its message and the
    value spliced into it. *)
Inductive JsError :=
| UnhandledFSError (e : FSError).

(** The outcome of a call that either returns or throws. *)
Inductive Outcome (A : Type) :=
| Returned (a : A)
| Thrown (e : JsError).
Arguments Returned {A} a.
Arguments Thrown {A} e.

(** The collaborators that live outside this module: [path-utils], the
    pure helpers of [utopia-vscode-common] and [vscode.Uri.joinPath].
    [applyPrettier] stands for the [formatted] field of its result. *)
Record Common := mkCommon {
  fromUtopiaURI : Uri -> string;
  toUtopiaPath : string -> string -> string;
  applyPrettier : string -> bool -> string;
  joinPath : Uri -> string -> Uri
}.

(** ** The outside world

    One snapshot of everything the module reads from outside itself. *)
Record Host := mkHost {
  focused : bool;
  visibleTextEditors : list TextEditor;
  getConfiguration : string -> JsValue;
  storeExists : string -> bool;
  storeRead : string -> option StoredFile;
  applyEditResult : Uri -> bool
}.

(** What the module asks the outside to do. *)
Inductive Call :=
| Exists (filePath : string)
| ReadFileAsUTF8 (filePath : string)
| WriteFileUnsavedContentAsUTF8 (filePath text : string)
| ClearFileUnsavedContent (filePath : string)
| SendMessage (m : FromVSCodeMessage)
| ExecuteCommand (command : string) (resource : Uri)
| ApplyEdit (resource : Uri) (range : Range) (text : string)
| SetTimeout (ms : Z)
| WaitUntil (edits : list TextEdit)
| SetDecorations (editor : TextEditor) (decorationType : TextEditorDecorationType)
    (ranges : list Range)
| SetSelection (editor : TextEditor) (s : Selection)
| RevealRange (editor : TextEditor) (range : Range) (revealType : TextEditorRevealType)
| UpdateConfiguration (key : string) (value : bool) (target : ConfigurationTarget).

(** ** The module's state

    [dirtyFiles], [incomingFileChanges] and [currentDecorations] are the
    module's variables. [documents] holds the text of the host's buffers as
    the module's own edits leave it, [now] counts the suspension points
    passed so far and [calls] is the log. *)
Record State := mkState {
  dirtyFiles : gset string;
  incomingFileChanges : gset string;
  currentDecorations : list DecorationRange;
  documents : gmap Uri string;
  now : nat;
  calls : list Call
}.

Definition setDirtyFiles (f : gset string -> gset string) (st : State) : State :=
  mkState (f (dirtyFiles st)) (incomingFileChanges st) (currentDecorations st)
    (documents st) (now st) (calls st).

Definition setIncomingFileChanges (f : gset string -> gset string) (st : State) : State :=
  mkState (dirtyFiles st) (f (incomingFileChanges st)) (currentDecorations st)
    (documents st) (now st) (calls st).

Definition setCurrentDecorations (ds : list DecorationRange) (st : State) : State :=
  mkState (dirtyFiles st) (incomingFileChanges st) ds
    (documents st) (now st) (calls st).

Definition setDocuments (f : gmap Uri string -> gmap Uri string) (st : State) : State :=
  mkState (dirtyFiles st) (incomingFileChanges st) (currentDecorations st)
    (f (documents st)) (now st) (calls st).

Definition tick (st : State) : State :=
  mkState (dirtyFiles st) (incomingFileChanges st) (currentDecorations st)
    (documents st) (S (now st)) (calls st).

Definition record (cs : list Call) (st : State) : State :=
  mkState (dirtyFiles st) (incomingFileChanges st) (currentDecorations st)
    (documents st) (now st) (calls st ++ cs).

(** A task transforms the state and returns a value, or runs out of the
    fuel that bounds an open-ended recursion. *)
Definition Task (A : Type) : Type := State -> option (A * State).

Definition ret {A} (a : A) : Task A := fun st => Some (a, st).

Definition bind {A B} (m : Task A) (k : A -> Task B) : Task B :=
  fun st => match m st with
            | Some (a, st') => k a st'
            | None => None
            end.

Notation "'let*' x ':=' m 'in' k" := (bind m (fun x => k))
  (at level 10, x name, m at level 100, k at level 200).
Notation "m '>>' k" := (bind m (fun _ => k))
  (at level 90, right associativity).

Definition outOfFuel {A} : Task A := fun _ => None.

Definition modify (f : State -> State) : Task unit := fun st => Some (tt, f st).

Definition gets {A} (f : State -> A) : Task A := fun st => Some (f st, st).

(** A call that is not waited for. *)
Definition perform (c : Call) : Task unit := modify (record [c]).

Fixpoint forEach {A} (l : list A) (body : A -> Task unit) : Task unit :=
  match l with
  | [] => ret tt
  | x :: rest => body x >> forEach rest body
  end.

(** ** Constants of the module *)

Definition FollowSelectionConfigKey : string := "utopia.editor.followSelection.enabled".

Definition baseDecorationTypeColor : string := "#007aff".

Definition selectionDecorationType : TextEditorDecorationType :=
  createTextEditorDecorationType baseDecorationTypeColor "solid" "0 0 0 3px" true.

Definition highlightDecorationType : TextEditorDecorationType :=
  createTextEditorDecorationType (baseDecorationTypeColor ++ "11") "solid" "0 0 0 3px" true.

Definition allDecorationRangeTypes : list DecorationRangeType := [highlight; selection_].

(** [Number.MAX_VALUE], the largest finite double; it is an integer. *)
Definition Number_MAX_VALUE : Z := 2 ^ 1024 - 2 ^ 971.

Definition entireDocRange : Range :=
  newRange (mkPosition 0 0) (mkPosition Number_MAX_VALUE Number_MAX_VALUE).

(** ** The module's functions *)

Section Extension.
Context (cm : Common) (env : nat -> Host).

(** The snapshot the module sees now. *)
Definition host : Task Host := fun st => Some (env (now st), st).

(** A call that is waited for: it is answered from the snapshot of the
    moment it is made, and other events may run before the task goes on. *)
Definition await {A} (c : Call) (answer : Host -> A) : Task A :=
  fun st => Some (answer (env (now st)), tick (record [c] st)).

Definition isUtopiaDocument (projectID : string) (document : TextDocument) : bool :=
  String.eqb (scheme (uri document)) projectID.

Definition onDidChangeTextDocument (projectID : string)
    (event : TextDocumentChangeEvent) : Task unit :=
  if isUtopiaDocument projectID (changedDocument event) then
    let resource := uri (changedDocument event) in
    if String.eqb (scheme resource) projectID then
      let path := fromUtopiaURI cm resource in
      if isDirty (changedDocument event) then
        modify (setDirtyFiles (fun s => s ∪ {[path]})) >>
        let* incoming := gets incomingFileChanges in
        if decide (path ∈ incoming) then
          modify (setIncomingFileChanges (fun s => s ∖ {[path]}))
        else
          let fullText := getText (changedDocument event) in
          perform (WriteFileUnsavedContentAsUTF8 path fullText)
      else ret tt
    else ret tt
  else ret tt.

Definition onWillSaveTextDocument (projectID : string)
    (event : TextDocumentWillSaveEvent) : Task unit :=
  if isUtopiaDocument projectID (savedDocument event) then
    let path := fromUtopiaURI cm (uri (savedDocument event)) in
    modify (setDirtyFiles (fun s => s ∖ {[path]})) >>
    match reason event with
    | Manual =>
        let formattedCode := applyPrettier cm (getText (savedDocument event)) false in
        perform (WaitUntil [newTextEdit entireDocRange formattedCode])
    | _ => ret tt
    end
  else ret tt.

Definition onDidCloseTextDocument (projectID : string)
    (document : TextDocument) : Task unit :=
  if isUtopiaDocument projectID document then
    let path := fromUtopiaURI cm (uri document) in
    let* dirty := gets dirtyFiles in
    if decide (path ∈ dirty) then
      perform (ClearFileUnsavedContent path) >>
      modify (setDirtyFiles (fun s => s ∖ {[path]}))
    else ret tt
  else ret tt.

Definition getFollowSelectionEnabledConfig : Task bool :=
  let* h := host in
  let followSelectionEnabledConfig := getConfiguration h FollowSelectionConfigKey in
  ret (match followSelectionEnabledConfig with
       | JsBoolean b => b
       | _ => false
       end).

Definition getFullConfig : Task UtopiaVSCodeConfig :=
  let* enabled := getFollowSelectionEnabledConfig in
  ret (mkConfig enabled).

Definition sendFullConfigToUtopia : Task unit :=
  let* fullConfig := getFullConfig in
  perform (SendMessage (utopiaVSCodeConfigValues fullConfig)).

Definition clearDirtyFlags (resource : Uri) : Task unit :=
  perform (ExecuteCommand "workbench.action.files.revertResource" resource).

(** [updateDirtyContent] waits twice, for the read and for the edit, and
    while it waits any other listener may run and change the two path
    sets. The function is therefore given as its three stretches between
    the suspension points; each runs without interruption and gets the
    answer it waited for as an argument. *)

(** From the call to the first suspension: the read is asked for. *)
Definition updateDirtyContent_untilRead (resource : Uri) : Task unit :=
  let filePath := fromUtopiaURI cm resource in
  modify (fun st => tick (record [ReadFileAsUTF8 filePath] st)).

(** From the answer of the read to the second suspension: the path is
    marked and the edit is asked for. The result is the content whose edit
    is pending, if there is one. *)
Definition updateDirtyContent_afterRead (resource : Uri) (stored : option StoredFile)
  : Task (option string) :=
  let filePath := fromUtopiaURI cm resource in
  match stored with
  | None => ret None
  | Some file =>
      match unsavedContent file with
      | Some unsavedContent =>
          modify (setIncomingFileChanges (fun s => s ∪ {[filePath]})) >>
          modify (fun st =>
                    tick (record [ApplyEdit resource entireDocRange unsavedContent] st)) >>
          ret (Some unsavedContent)
      | None => ret None
      end
  end.

(** From the answer of the edit to the end. *)
Definition updateDirtyContent_afterApplyEdit (resource : Uri)
    (unsavedContent : string) (editApplied : bool) : Task unit :=
  let filePath := fromUtopiaURI cm resource in
  if negb editApplied then
    modify (setIncomingFileChanges (fun s => s ∖ {[filePath]}))
  else
    modify (setDocuments (fun docs =>
      <[resource := replaceRange entireDocRange unsavedContent
                      (default "" (docs !! resource))]> docs)).

(** [updateDirtyContent] run with nothing else in between: the three
    stretches in a row, each call answered from the snapshot of the moment
    it is made. *)
Definition updateDirtyContent (resource : Uri) : Task unit :=
  let filePath := fromUtopiaURI cm resource in
  let* asked := host in
  updateDirtyContent_untilRead resource >>
  let* issued := host in
  let* pending := updateDirtyContent_afterRead resource (storeRead asked filePath) in
  match pending with
  | Some unsavedContent =>
      updateDirtyContent_afterApplyEdit resource unsavedContent
        (applyEditResult issued resource)
  | None => ret tt
  end.

Definition defaultRetries : Z := 5.

Equations? openFile (fileUri : Uri) (retries : Z) : Task bool
  by wf (Z.to_nat retries) lt :=
  openFile fileUri retries :=
    let filePath := fromUtopiaURI cm fileUri in
    let* fileExists := await (Exists filePath) (fun h => storeExists h filePath) in
    if fileExists then
      await (ExecuteCommand "vscode.open" fileUri) (fun _ => tt) >>
      ret true
    else
      match Z_gt_dec retries 0 with
      | left _ =>
          await (SetTimeout 100) (fun _ => tt) >>
          openFile fileUri (retries - 1)
      | right _ => ret false
      end.
Proof. lia. Qed.

Definition cursorPositionChanged (event : TextEditorSelectionChangeEvent) : Task unit :=
  let editor := textEditor event in
  let filename := path (uri (document editor)) in
  let position := active (selection editor) in
  perform (SendMessage
             (editorCursorPositionChanged filename (line position) (character position))).

Definition rangesIntersectLinesOnly (first second : Range) : bool :=
  (line (start first) <=? line (end_ second))
  && (line (start second) <=? line (end_ first)).

Definition getVSCodeRange (bounds : Bounds) : Range :=
  newRange (mkPosition (startLine bounds) (startCol bounds))
           (mkPosition (endLine bounds) (endCol bounds)).

Definition getVSCodeRangeForScrolling (bounds : Bounds) : Range :=
  newRange (mkPosition (startLine bounds) 0)
           (mkPosition (endLine bounds) (endCol bounds)).

Fixpoint revealRangeIfPossible (fuel : nat) (workspaceRootUri : Uri)
    (boundsInFile : BoundsInFile) (forceIfFocused : bool) : Task unit :=
  match fuel with
  | O => outOfFuel
  | S fuel' =>
      let* h := host in
      let focused := focused h in
      if forceIfFocused || negb focused then
        let visibleEditor :=
          List.find (fun editor =>
                       String.eqb (path (uri (document editor))) (filePath boundsInFile))
                    (visibleTextEditors h) in
        match visibleEditor with
        | None =>
            let* opened :=
              openFile (joinPath cm workspaceRootUri (filePath boundsInFile))
                       defaultRetries in
            if opened then
              revealRangeIfPossible fuel' workspaceRootUri boundsInFile true
            else ret tt
        | Some visibleEditor =>
            let rangeToReveal := getVSCodeRangeForScrolling boundsInFile in
            let alreadySelected :=
              rangesIntersectLinesOnly (selectionRange (selection visibleEditor))
                                       rangeToReveal in
            let alreadyVisible :=
              existsb (fun r => contains r (selectionRange (selection visibleEditor)))
                      (visibleRanges visibleEditor) in
            (if negb alreadySelected then
               let selectionRange := getVSCodeRange boundsInFile in
               perform (SetSelection visibleEditor
                          (newSelection (start selectionRange) (start selectionRange)))
             else ret tt) >>
            let shouldReveal := negb (alreadySelected && alreadyVisible) in
            if shouldReveal then
              perform (RevealRange visibleEditor rangeToReveal InCenterIfOutsideViewport)
            else ret tt
        end
      else ret tt
  end.

Definition getVSCodeDecorationType (rangeType : DecorationRangeType)
  : TextEditorDecorationType :=
  match rangeType with
  | highlight => highlightDecorationType
  | selection_ => selectionDecorationType
  end.

(** The two-level object, first by file name and then by range type. *)
Definition addDecoration
    (result : gmap string (gmap string (list DecorationRange)))
    (range : DecorationRange) : gmap string (gmap string (list DecorationRange)) :=
  let decorationsForFilename : gmap string (list DecorationRange) :=
    match result !! filePath range with
    | Some forFilename => forFilename
    | None => ∅
    end in
  let decorationsForType : list DecorationRange :=
    match decorationsForFilename !! rangeTypeKey (rangeType range) with
    | Some forType => forType
    | None => []
    end in
  <[filePath range :=
      <[rangeTypeKey (rangeType range) := (decorationsForType ++ [range])%list]>
        decorationsForFilename]> result.

Definition getDecorationsByFilenameAndType (decorations : list DecorationRange)
  : gmap string (gmap string (list DecorationRange)) :=
  foldl addDecoration ∅ decorations.

Definition updateDecorations (decorations : list DecorationRange) : Task unit :=
  let* h := host in
  let visibleEditors := visibleTextEditors h in
  let decorationsByFilenameAndType := getDecorationsByFilenameAndType decorations in
  forEach visibleEditors (fun visibleEditor =>
    let filename := path (uri (document visibleEditor)) in
    let decorations : gmap string (list DecorationRange) :=
      default ∅ (decorationsByFilenameAndType !! filename) in
    forEach allDecorationRangeTypes (fun rangeType =>
      let decorationsForType : list DecorationRange :=
        default [] (decorations !! rangeTypeKey rangeType) in
      let vsCodeDecorationType := getVSCodeDecorationType rangeType in
      let vsCodeRanges :=
        map (fun range : DecorationRange => getVSCodeRange range) decorationsForType in
      perform (SetDecorations visibleEditor vsCodeDecorationType vsCodeRanges))).

Definition handleMessage (fuel : nat) (workspaceRootUri : Uri)
    (message : ToVSCodeMessage) : Task unit :=
  match message with
  | OPEN_FILE filePath =>
      openFile (joinPath cm workspaceRootUri filePath) defaultRetries >> ret tt
  | UPDATE_DECORATIONS decorations =>
      modify (setCurrentDecorations decorations) >>
      let* current := gets currentDecorations in
      updateDecorations current
  | SELECTED_ELEMENT_CHANGED boundsInFile =>
      let* followSelectionEnabled := getFollowSelectionEnabledConfig in
      if followSelectionEnabled then
        revealRangeIfPossible fuel workspaceRootUri boundsInFile false
      else ret tt
  | GET_UTOPIA_VSCODE_CONFIG => sendFullConfigToUtopia
  | SET_FOLLOW_SELECTION_CONFIG enabled =>
      perform (UpdateConfiguration FollowSelectionConfigKey enabled Global)
  end.

Definition onDidChangeVisibleTextEditors : Task unit :=
  let* current := gets currentDecorations in
  updateDecorations current.

Definition onDidChangeTextEditorSelection (event : TextEditorSelectionChangeEvent)
  : Task unit :=
  match kind event with
  | Some k =>
      match k with
      | Command => ret tt
      | _ => cursorPositionChanged event
      end
  | None => ret tt
  end.

Definition toFileSystemProviderError (projectID : string) (error : FSError)
  : Outcome FileSystemError :=
  let unadjustedPath := fsPath error in
  let code := fsCode error in
  let path := toUtopiaPath cm projectID unadjustedPath in
  if String.eqb code "ENOENT" then Returned (FileNotFound path)
  else if String.eqb code "EISDIR" then Returned (FileIsADirectory path)
  else if String.eqb code "ENOTDIR" then Returned (FileNotADirectory path)
  else if String.eqb code "EEXIST" then Returned (FileExists path)
  else Thrown (UnhandledFSError error).

End Extension.

(** ** The configuration listener *)

Section Configuration.
Context (env : nat -> Host).

(** The listener on configuration changes; the event is its
    [affectsConfiguration] method. *)
Definition onDidChangeConfiguration (affectsConfiguration : string -> bool)
  : Task unit :=
  if affectsConfiguration FollowSelectionConfigKey then sendFullConfigToUtopia env
  else ret tt.

End Configuration.

(** ** The listener on saved content

    The second listener of [watchForUnsavedContentChangesFromFS]:
    [clearDirtyFlags] has no suspension point, so the calls run one after
    the other. *)

Definition onUtopiaDidChangeSavedContent (uris : list Uri) : Task unit :=
  forEach uris (fun uri => clearDirtyFlags uri).

(** ** What runs between the suspension points

    The work of the listeners that read or write the two path sets, piece
    by piece, so that what runs while [updateDirtyContent] waits can be
    said. *)

Section Stretches.
Context (cm : Common).

(** One uninterrupted piece of work of the listeners that read or write
    the two path sets. *)
Inductive Step :=
| DidChangeTextDocument (event : TextDocumentChangeEvent)
| WillSaveTextDocument (event : TextDocumentWillSaveEvent)
| DidCloseTextDocument (document : TextDocument)
| SavedContentChanged (uris : list Uri)
| UnsavedContentChanged (resource : Uri)
| ReadResolved (resource : Uri) (stored : option StoredFile)
| ApplyEditResolved (resource : Uri) (unsavedContent : string) (editApplied : bool).

Definition runStep (projectID : string) (step : Step) : Task unit :=
  match step with
  | DidChangeTextDocument event => onDidChangeTextDocument cm projectID event
  | WillSaveTextDocument event => onWillSaveTextDocument cm projectID event
  | DidCloseTextDocument document => onDidCloseTextDocument cm projectID document
  | SavedContentChanged uris => onUtopiaDidChangeSavedContent uris
  | UnsavedContentChanged resource => updateDirtyContent_untilRead cm resource
  | ReadResolved resource stored =>
      updateDirtyContent_afterRead cm resource stored >> ret tt
  | ApplyEditResolved resource unsavedContent editApplied =>
      updateDirtyContent_afterApplyEdit cm resource unsavedContent editApplied
  end.

Definition runSteps (projectID : string) (steps : list Step) : Task unit :=
  forEach steps (runStep projectID).

(** The steps that leave the mark of a path in place: all but a dirty
    notification for the path from a document of the project, which
    consumes the mark, and the report of a refused edit for the path,
    which removes it. *)
Definition sparesMark (projectID filePath : string) (step : Step) : Prop :=
  match step with
  | DidChangeTextDocument event =>
      ~ (isUtopiaDocument projectID (changedDocument event) = true
         /\ isDirty (changedDocument event) = true
         /\ fromUtopiaURI cm (uri (changedDocument event)) = filePath)
  | ApplyEditResolved resource _ editApplied =>
      editApplied = true \/ fromUtopiaURI cm resource <> filePath
  | _ => True
  end.

End Stretches.

(** ** What the host saves

    The edits a will-save listener hands to [waitUntil] are applied to the
    document's text, and the result is what is written. *)

Definition contributedEdits (cs : list Call) : list TextEdit :=
  flat_map (fun c => match c with WaitUntil edits => edits | _ => [] end) cs.

Definition savedText (document : TextDocument) (cs : list Call) : string :=
  applyTextEdits (contributedEdits cs) (getText document).

(** ** Sample inputs *)

Definition sampleCommon : Common :=
  mkCommon (fun u => path u)
           (fun projectID p => projectID ++ ":" ++ p)
           (fun code _ => code ++ ";")
           (fun root p => mkUri (scheme root) (path root ++ "/" ++ p)).

Definition sampleProject : string := "project".

Definition sampleResource : Uri := mkUri sampleProject "/src/app.js".

Definition initialState : State := mkState ∅ ∅ [] ∅ 0 [].

(** A store in which every file has the unsaved content ["edited"]. *)
Definition hostWithUnsaved (editAccepted : bool) : Host :=
  mkHost false [] (fun _ => JsUndefined) (fun _ => true)
         (fun _ => Some (mkStoredFile "saved" (Some "edited")))
         (fun _ => editAccepted).

(** A store in which no file has unsaved content, and none exists. *)
Definition hostWithoutUnsaved : Host :=
  mkHost false [] (fun _ => JsUndefined) (fun _ => false)
         (fun _ => Some (mkStoredFile "saved" None))
         (fun _ => true).

Definition sampleDocument (dirty : bool) : TextDocument :=
  mkTextDocument sampleResource dirty "typed".

Definition dirtyState : State :=
  mkState {["/src/app.js"]} ∅ [] ∅ 0 [].

(** ** Vocabulary of the statements *)

#[global] Instance DecorationRangeType_eq_dec : EqDecision DecorationRangeType.
Proof. solve_decision. Defined.

(** The entry of the two-level object for a file name and a key, with the
    defaults [updateDecorations] uses for a missing entry. *)
Definition grouped (result : gmap string (gmap string (list DecorationRange)))
    (filename key : string) : list DecorationRange :=
  default [] (default ∅ (result !! filename) !! key).

(** No file name is kept without a range type, and no range type without
    a range. *)
Definition noEmptyEntries (result : gmap string (gmap string (list DecorationRange)))
  : Prop :=
  forall filename (forFilename : gmap string (list DecorationRange)),
    result !! filename = Some forFilename ->
    forFilename <> ∅
    /\ forall key (forType : list DecorationRange),
         forFilename !! key = Some forType -> forType <> [].

(** The state after [n] suspension points and the calls [cs]. *)
Definition elapse (n : nat) (cs : list Call) (st : State) : State :=
  mkState (dirtyFiles st) (incomingFileChanges st) (currentDecorations st)
    (documents st) (now st + n) (calls st ++ cs).

(** The calls of [openFile] when every check fails: a check, then a delay
    and a check for each retry. *)
Fixpoint attemptsLog (filePath : string) (retries : nat) : list Call :=
  match retries with
  | O => [Exists filePath]
  | S n => Exists filePath :: SetTimeout 100 :: attemptsLog filePath n
  end.

(** An editor on a document of the sample project, with the cursor at the
    start of a line. *)
Definition editorAt (p : string) (ln : Z) (visible : list Range) : TextEditor :=
  mkTextEditor (mkTextDocument (mkUri sampleProject p) false "")
               (newSelection (mkPosition ln 0) (mkPosition ln 0)) visible.

(** A window showing the given editors, with follow-selection enabled and a
    store in which every file exists. *)
Definition hostShowing (isFocused : bool) (editors : list TextEditor) : Host :=
  mkHost isFocused editors (fun _ => JsBoolean true) (fun _ => true)
         (fun _ => None) (fun _ => true).

Definition sampleRoot : Uri := mkUri sampleProject "".

Definition sampleBounds : BoundsInFile :=
  mkBoundsInFile "/src/app.js" (mkBounds 10 12 4 8).

(** A target of forty-eight lines that starts on line 3. *)
Definition tallBounds : BoundsInFile :=
  mkBoundsInFile "/src/app.js" (mkBounds 3 50 0 0).

(** The first eleven lines of the document. *)
Definition topOfDocument : Range :=
  newRange (mkPosition 0 0) (mkPosition 10 80).

Definition sampleDecoration : DecorationRange :=
  mkDecorationRange selection_ (mkBoundsInFile "a.txt" (mkBounds 0 0 0 5)).

(** A window in which the target's file opens on request: nothing is shown
    until the open command has been given, the editor is shown afterwards,
    and the window has focus by then. *)
Definition hostOpening (editor : TextEditor) : nat -> Host :=
  fun t => if (t <? 2)%nat then hostShowing false [] else hostShowing true [editor].

(** A store in which the file appears at the third check. *)
Definition hostCreatingFile : nat -> Host :=
  fun t =>
    mkHost false [] (fun _ => JsUndefined) (fun _ => (4 <=? t)%nat)
           (fun _ => None) (fun _ => true).

(** The sample document as the applied change leaves it. *)
Definition echoedDocument : TextDocument :=
  mkTextDocument sampleResource true "edited".

(** The sample document under another scheme. *)
Definition foreignDocument : TextDocument :=
  mkTextDocument (mkUri "file" "/src/app.js") true "typed".

(** A state in which the sample path is marked incoming. *)
Definition markedState : State := mkState ∅ {["/src/app.js"]} [] ∅ 0 [].

(** ** The state and the log *)

Ltac run_task :=
  cbv beta delta [bind ret modify gets perform await host outOfFuel] iota;
  cbn beta iota.

Lemma record_nil st : record [] st = st.
Proof. destruct st; unfold record; simpl. by rewrite app_nil_r. Qed.

Lemma record_record a b st : record b (record a st) = record (a ++ b)%list st.
Proof. unfold record; simpl. by rewrite app_assoc. Qed.

Lemma forEach_calls {A} (f : A -> list Call) (body : A -> Task unit) (l : list A) :
  (forall x st, body x st = Some (tt, record (f x) st)) ->
  forall st, forEach l body st = Some (tt, record (flat_map f l) st).
Proof.
  intros Hbody. induction l as [|x rest IH]; intros st; cbn [forEach flat_map].
  - unfold ret. by rewrite record_nil.
  - unfold bind. rewrite Hbody, IH. by rewrite record_record.
Qed.

Lemma not_elem_of_removed (paths : gset string) (p : string) : p ∉ paths ∖ {[p]}.
Proof. intros [_ Hp]%elem_of_difference. by apply Hp, elem_of_singleton. Qed.

(** ** The host's text edits *)

Lemma offsetAt_origin text : offsetAt text 0 0 = 0%nat.
Proof. by destruct text. Qed.

Lemma offsetAt_past_last_line text : forall ln ch,
  Z.of_nat (String.length text) < ln -> offsetAt text ln ch = String.length text.
Proof.
  induction text as [|c rest IH]; intros ln ch Hln; [done|].
  cbn [offsetAt String.length] in *.
  destruct (Z.leb_spec ln 0) as [Hle|Hgt]; [lia|].
  f_equal. apply IH. destruct (isLineFeed c); lia.
Qed.

Lemma dropString_all s : dropString (String.length s) s = "".
Proof. induction s; simpl; auto. Qed.

Lemma append_empty_r (s : string) : String.append s "" = s.
Proof.
  induction s as [|c s IH]; [done|].
  change (String c (String.append s "") = String c s). by rewrite IH.
Qed.

Lemma entireDocRange_unfold :
  entireDocRange
  = mkRange (mkPosition 0 0) (mkPosition Number_MAX_VALUE Number_MAX_VALUE).
Proof. reflexivity. Qed.

(** Replacing [entireDocRange] replaces the whole text, whatever it was. *)
Lemma replaceRange_entireDocRange replacement text :
  Z.of_nat (String.length text) < Number_MAX_VALUE ->
  replaceRange entireDocRange replacement text = replacement.
Proof.
  intros Hsize. rewrite entireDocRange_unfold. unfold replaceRange.
  cbn [start end_ line character].
  rewrite offsetAt_origin, (offsetAt_past_last_line _ _ _ Hsize), dropString_all.
  destruct text; simpl; apply append_empty_r.
Qed.

(** ** The dirty-content reconciler *)

Section Reconciler.
Context (cm : Common) (env : nat -> Host).

(** A notification for a document outside the project, or for one that
    is not dirty, changes nothing. *)
Lemma onDidChange_ignored projectID event st :
  isUtopiaDocument projectID (changedDocument event) = false
  \/ isDirty (changedDocument event) = false ->
  onDidChangeTextDocument cm projectID event st = Some (tt, st).
Proof.
  unfold onDidChangeTextDocument. intros [H|H].
  - by rewrite H.
  - destruct (isUtopiaDocument _ _) eqn:E; [|done].
    unfold isUtopiaDocument in E. by rewrite E, H.
Qed.

Lemma onDidChange_dirty projectID event st :
  isUtopiaDocument projectID (changedDocument event) = true ->
  isDirty (changedDocument event) = true ->
  let path := fromUtopiaURI cm (uri (changedDocument event)) in
  onDidChangeTextDocument cm projectID event st =
    Some (tt,
          if decide (path ∈ incomingFileChanges st) then
            setIncomingFileChanges (fun s => s ∖ {[path]})
              (setDirtyFiles (fun s => s ∪ {[path]}) st)
          else
            record [WriteFileUnsavedContentAsUTF8 path (getText (changedDocument event))]
              (setDirtyFiles (fun s => s ∪ {[path]}) st)).
Proof.
  intros Hs Hd path. unfold onDidChangeTextDocument. rewrite Hs.
  unfold isUtopiaDocument in Hs. rewrite Hs, Hd. run_task.
  fold path. by destruct (decide _).
Qed.

Lemma updateDirtyContent_unsaved resource file unsaved st :
  let filePath := fromUtopiaURI cm resource in
  storeRead (env (now st)) filePath = Some file ->
  unsavedContent file = Some unsaved ->
  updateDirtyContent cm env resource st =
    Some (tt,
      let st1 := tick (record [ApplyEdit resource entireDocRange unsaved]
                   (setIncomingFileChanges (fun s => s ∪ {[filePath]})
                     (tick (record [ReadFileAsUTF8 filePath] st)))) in
      if applyEditResult (env (S (now st))) resource then
        setDocuments (fun docs =>
          <[resource := replaceRange entireDocRange unsaved
                          (default "" (docs !! resource))]> docs) st1
      else setIncomingFileChanges (fun s => s ∖ {[filePath]}) st1).
Proof.
  intros filePath Hread Hunsaved.
  unfold updateDirtyContent, updateDirtyContent_untilRead,
    updateDirtyContent_afterRead, updateDirtyContent_afterApplyEdit.
  run_task. fold filePath. rewrite Hread, Hunsaved. run_task.
  by destruct (applyEditResult _ _).
Qed.

(** The three stretches in a row, each with the answer of the outside
    world at its moment, are [updateDirtyContent]. *)
Lemma updateDirtyContent_stretches resource st :
  let filePath := fromUtopiaURI cm resource in
  updateDirtyContent cm env resource st
  = (updateDirtyContent_untilRead cm resource >>
     let* pending :=
       updateDirtyContent_afterRead cm resource (storeRead (env (now st)) filePath) in
     match pending with
     | Some unsaved =>
         updateDirtyContent_afterApplyEdit cm resource unsaved
           (applyEditResult (env (S (now st))) resource)
     | None => ret tt
     end) st.
Proof.
  intros filePath.
  unfold updateDirtyContent, updateDirtyContent_untilRead,
    updateDirtyContent_afterRead, updateDirtyContent_afterApplyEdit.
  run_task. fold filePath.
  destruct (storeRead _ _) as [file|]; run_task; [|done].
  destruct (unsavedContent file) as [unsaved|]; run_task; [|done].
  by destruct (applyEditResult _ _).
Qed.

Lemma afterRead_marks resource file unsaved st :
  unsavedContent file = Some unsaved ->
  updateDirtyContent_afterRead cm resource (Some file) st
  = Some (Some unsaved,
          tick (record [ApplyEdit resource entireDocRange unsaved]
                  (setIncomingFileChanges
                     (fun s => s ∪ {[fromUtopiaURI cm resource]}) st))).
Proof.
  intros Hunsaved. unfold updateDirtyContent_afterRead. by rewrite Hunsaved.
Qed.

(** A step that spares the mark of a path runs to its end and leaves the
    mark where it is. *)
Lemma runStep_spares_mark projectID filePath step st :
  sparesMark cm projectID filePath step ->
  filePath ∈ incomingFileChanges st ->
  exists st1,
    runStep cm projectID step st = Some (tt, st1)
    /\ (filePath ∈ incomingFileChanges st1).
Proof.
  intros Hspares Hmarked. destruct step as [event|event|document|uris|resource
    |resource stored|resource unsaved editApplied]; cbn [runStep sparesMark] in *.
  - destruct (isUtopiaDocument projectID (changedDocument event)) eqn:Hscheme;
      [|rewrite onDidChange_ignored by (by left); eauto].
    destruct (isDirty (changedDocument event)) eqn:Hdirty;
      [|rewrite onDidChange_ignored by (by right); eauto].
    rewrite (onDidChange_dirty _ _ _ Hscheme Hdirty). cbn zeta.
    eexists; split; [reflexivity|].
    destruct (decide _); cbn; [|done].
    apply elem_of_difference. split; [done|].
    rewrite elem_of_singleton. intros ->. by apply Hspares.
  - unfold onWillSaveTextDocument.
    destruct (isUtopiaDocument _ _); [|eauto]. run_task.
    destruct (reason event); run_task; eauto.
  - unfold onDidCloseTextDocument.
    destruct (isUtopiaDocument _ _); [|eauto]. run_task.
    destruct (decide _); run_task; eauto.
  - unfold onUtopiaDidChangeSavedContent.
    rewrite (forEach_calls
               (fun uri => [ExecuteCommand "workbench.action.files.revertResource" uri]));
      [|done].
    eauto.
  - unfold updateDirtyContent_untilRead. run_task. eauto.
  - unfold updateDirtyContent_afterRead.
    destruct stored as [file|]; run_task; [|eauto].
    destruct (unsavedContent file); run_task; [|eauto].
    eexists; split; [reflexivity|]. cbn. by apply elem_of_union_l.
  - unfold updateDirtyContent_afterApplyEdit.
    destruct editApplied; cbn [negb]; run_task; [eauto|].
    destruct Hspares as [|Hother]; [done|].
    eexists; split; [reflexivity|]. cbn.
    apply elem_of_difference. split; [done|].
    rewrite elem_of_singleton. by intros ->.
Qed.

Lemma runSteps_spare_mark projectID filePath steps : forall st,
  Forall (sparesMark cm projectID filePath) steps ->
  filePath ∈ incomingFileChanges st ->
  exists st1,
    runSteps cm projectID steps st = Some (tt, st1)
    /\ (filePath ∈ incomingFileChanges st1).
Proof.
  induction steps as [|step rest IH]; intros st Hspare Hmarked.
  - by exists st.
  - apply Forall_cons in Hspare as [Hstep Hrest].
    destruct (runStep_spares_mark projectID filePath step st Hstep Hmarked)
      as (st1 & Hrun & Hmarked1).
    destruct (IH st1 Hrest Hmarked1) as (st2 & Hruns & Hmarked2).
    exists st2. split; [|done].
    unfold runSteps in *. cbn [forEach]. unfold bind at 1. by rewrite Hrun.
Qed.

(** With the path marked, a notification for it that is dirty and of the
    project is swallowed; one that is not changes nothing. *)
Lemma marked_notification projectID filePath event st :
  filePath ∈ incomingFileChanges st ->
  fromUtopiaURI cm (uri (changedDocument event)) = filePath ->
  (isUtopiaDocument projectID (changedDocument event) = true ->
   isDirty (changedDocument event) = true ->
   exists st1,
     onDidChangeTextDocument cm projectID event st = Some (tt, st1)
     /\ calls st1 = calls st
     /\ (filePath ∉ incomingFileChanges st1)
     /\ dirtyFiles st1 = dirtyFiles st ∪ {[filePath]})
  /\ (isUtopiaDocument projectID (changedDocument event) = false
      \/ isDirty (changedDocument event) = false ->
      onDidChangeTextDocument cm projectID event st = Some (tt, st)).
Proof.
  intros Hmarked Hpath. split.
  - intros Hscheme Hdirty.
    rewrite (onDidChange_dirty _ _ _ Hscheme Hdirty). cbn zeta. rewrite Hpath.
    eexists; split; [reflexivity|].
    rewrite decide_True by done.
    cbn. split; [reflexivity|]. split; [apply not_elem_of_removed|reflexivity].
  - apply onDidChange_ignored.
Qed.

(** C2 (as amended). The change of a path comes from the store with
    unsaved content: the path is marked incoming and the replacement of
    the buffer is asked for, in this order and before anything else can
    run. From then on, while the edit is pending and after it is reported
    applied, whatever other work of the listeners runs in between, as long
    as none of it is a dirty notification for the path from a document of
    the project or the report of a refused edit for the same path, the
    mark is in place: the next notification for the path, if its document
    belongs to the project and is dirty, writes nothing to the store,
    consumes the mark and records the path as dirty, whether it comes
    while the edit is pending or after its report. A notification whose
    document is outside the project or is not dirty changes nothing, so it
    writes nothing either, but the mark stays. The same holds of
    [updateDirtyContent] run without interruption. *)
Theorem no_echo_after_applied_change projectID resource file unsaved
    (whilePending afterwards : list Step) st :
  let filePath := fromUtopiaURI cm resource in
  unsavedContent file = Some unsaved ->
  Forall (sparesMark cm projectID filePath) whilePending ->
  Forall (sparesMark cm projectID filePath) afterwards ->
  (exists marked pending applied,
     updateDirtyContent_afterRead cm resource (Some file) st
     = Some (Some unsaved, marked)
     /\ calls marked = (calls st ++ [ApplyEdit resource entireDocRange unsaved])%list
     /\ runSteps cm projectID whilePending marked = Some (tt, pending)
     /\ (updateDirtyContent_afterApplyEdit cm resource unsaved true >>
         runSteps cm projectID afterwards) pending = Some (tt, applied)
     /\ forall seen, seen = pending \/ seen = applied ->
          (filePath ∈ incomingFileChanges seen)
          /\ forall event,
               fromUtopiaURI cm (uri (changedDocument event)) = filePath ->
               (isUtopiaDocument projectID (changedDocument event) = true ->
                isDirty (changedDocument event) = true ->
                exists st2,
                  onDidChangeTextDocument cm projectID event seen = Some (tt, st2)
                  /\ calls st2 = calls seen
                  /\ (filePath ∉ incomingFileChanges st2)
                  /\ dirtyFiles st2 = dirtyFiles seen ∪ {[filePath]})
               /\ (isUtopiaDocument projectID (changedDocument event) = false
                   \/ isDirty (changedDocument event) = false ->
                   onDidChangeTextDocument cm projectID event seen = Some (tt, seen)))
  /\ (storeRead (env (now st)) filePath = Some file ->
      applyEditResult (env (S (now st))) resource = true ->
      exists st1,
        updateDirtyContent cm env resource st = Some (tt, st1)
        /\ (filePath ∈ incomingFileChanges st1)
        /\ forall event,
             fromUtopiaURI cm (uri (changedDocument event)) = filePath ->
             (isUtopiaDocument projectID (changedDocument event) = true ->
              isDirty (changedDocument event) = true ->
              exists st2,
                onDidChangeTextDocument cm projectID event st1 = Some (tt, st2)
                /\ calls st2 = calls st1
                /\ (filePath ∉ incomingFileChanges st2)
                /\ dirtyFiles st2 = dirtyFiles st1 ∪ {[filePath]})
             /\ (isUtopiaDocument projectID (changedDocument event) = false
                 \/ isDirty (changedDocument event) = false ->
                 onDidChangeTextDocument cm projectID event st1 = Some (tt, st1))).
Proof.
  intros filePath Hunsaved Hpending Hafterwards. split.
  - rewrite (afterRead_marks resource file unsaved st Hunsaved). fold filePath.
    set (marked := tick _).
    assert (Hmarked : filePath ∈ incomingFileChanges marked)
      by (cbn; apply elem_of_union_r, elem_of_singleton_2, eq_refl).
    destruct (runSteps_spare_mark projectID filePath whilePending marked
                Hpending Hmarked) as (pending & Hrun1 & Hmarked1).
    set (settled := setDocuments (fun docs =>
           <[resource := replaceRange entireDocRange unsaved
                           (default "" (docs !! resource))]> docs) pending).
    assert (Hsettled :
              updateDirtyContent_afterApplyEdit cm resource unsaved true pending
              = Some (tt, settled))
      by reflexivity.
    destruct (runSteps_spare_mark projectID filePath afterwards settled
                Hafterwards Hmarked1) as (applied & Hrun2 & Hmarked2).
    exists marked, pending, applied.
    split; [reflexivity|]. split; [reflexivity|]. split; [exact Hrun1|].
    split; [unfold bind; by rewrite Hsettled|].
    intros seen [-> | ->]; (split; [done|]); intros event Hpath;
      by apply marked_notification.
  - intros Hread Happlied.
    rewrite (updateDirtyContent_unsaved _ _ _ _ Hread Hunsaved), Happlied.
    fold filePath. eexists; split; [reflexivity|]. cbn zeta.
    assert (Hin : filePath ∈ incomingFileChanges st ∪ {[filePath]})
      by apply elem_of_union_r, elem_of_singleton_2, eq_refl.
    split; [exact Hin|]. intros event Hpath.
    by apply marked_notification.
Qed.

(** C3 (as amended). When the buffer replacement fails, the path is not
    left marked incoming; the next edit notification for that path, if
    its document belongs to the project and is dirty, writes the
    document's full text to the store's unsaved-content slot, once. A
    notification whose document is outside the project or is not dirty
    changes nothing and writes nothing. *)
Theorem echo_resumes_after_failed_change projectID resource file unsaved st :
  let filePath := fromUtopiaURI cm resource in
  storeRead (env (now st)) filePath = Some file ->
  unsavedContent file = Some unsaved ->
  applyEditResult (env (S (now st))) resource = false ->
  exists st1,
    updateDirtyContent cm env resource st = Some (tt, st1)
    /\ (filePath ∉ incomingFileChanges st1)
    /\ documents st1 = documents st
    /\ forall event,
         fromUtopiaURI cm (uri (changedDocument event)) = filePath ->
         (isUtopiaDocument projectID (changedDocument event) = true ->
          isDirty (changedDocument event) = true ->
          exists st2,
            onDidChangeTextDocument cm projectID event st1 = Some (tt, st2)
            /\ calls st2
               = (calls st1
                  ++ [WriteFileUnsavedContentAsUTF8 filePath
                        (getText (changedDocument event))])%list)
         /\ (isUtopiaDocument projectID (changedDocument event) = false
             \/ isDirty (changedDocument event) = false ->
             onDidChangeTextDocument cm projectID event st1 = Some (tt, st1)).
Proof.
  intros filePath Hread Hunsaved Hfailed.
  rewrite (updateDirtyContent_unsaved _ _ _ _ Hread Hunsaved), Hfailed.
  fold filePath. eexists; split; [reflexivity|]. cbn zeta.
  assert (Hout : filePath ∉ (incomingFileChanges st ∪ {[filePath]}) ∖ {[filePath]})
    by apply not_elem_of_removed.
  split; [exact Hout|]. split; [reflexivity|]. intros event Hpath. split.
  - intros Hscheme Hdirty.
    rewrite (onDidChange_dirty _ _ _ Hscheme Hdirty). cbn zeta. rewrite Hpath.
    eexists; split; [reflexivity|].
    destruct (decide _) as [Hyes|_]; [by destruct Hout|]. reflexivity.
  - apply onDidChange_ignored.
Qed.

(** C10. When the store read yields no unsaved content, nothing is done
    beyond the read itself: no buffer edit is asked for, and the two
    path sets and the documents' text are as they were. *)
Theorem updateDirtyContent_without_unsaved_content resource file st :
  let filePath := fromUtopiaURI cm resource in
  storeRead (env (now st)) filePath = Some file ->
  unsavedContent file = None ->
  exists st1,
    updateDirtyContent cm env resource st = Some (tt, st1)
    /\ incomingFileChanges st1 = incomingFileChanges st
    /\ dirtyFiles st1 = dirtyFiles st
    /\ documents st1 = documents st
    /\ calls st1 = (calls st ++ [ReadFileAsUTF8 filePath])%list.
Proof.
  intros filePath Hread Hnone.
  unfold updateDirtyContent, updateDirtyContent_untilRead,
    updateDirtyContent_afterRead, updateDirtyContent_afterApplyEdit.
  run_task. fold filePath. rewrite Hread, Hnone. run_task.
  eexists; split; [reflexivity|]. by cbn.
Qed.

(** C4 (as amended). For a document of the project, the will-save
    handler removes the path from the dirty set whatever the reason of
    the save. When the save is a manual one, it hands over exactly one
    edit, which replaces the entire document by the formatter's output
    on the full text, so that the saved text is that output. For a save
    of any other reason it hands over no edit and the text is saved as
    it is. *)
Theorem save_clears_dirty_and_formats_manual_saves projectID event st :
  let document := savedDocument event in
  let path := fromUtopiaURI cm (uri document) in
  let formatted := applyPrettier cm (getText document) false in
  isUtopiaDocument projectID document = true ->
  Z.of_nat (String.length (getText document)) < Number_MAX_VALUE ->
  exists st1 cs,
    onWillSaveTextDocument cm projectID event st = Some (tt, st1)
    /\ dirtyFiles st1 = dirtyFiles st ∖ {[path]}
    /\ (path ∉ dirtyFiles st1)
    /\ calls st1 = (calls st ++ cs)%list
    /\ (reason event = Manual ->
        cs = [WaitUntil [newTextEdit entireDocRange formatted]]
        /\ savedText document cs = formatted)
    /\ (reason event <> Manual ->
        cs = [] /\ savedText document cs = getText document).
Proof.
  intros document path formatted Hscheme Hsize.
  unfold onWillSaveTextDocument. fold document. rewrite Hscheme. fold path.
  run_task. destruct (reason event) eqn:Hreason; run_task.
  - exists (record [WaitUntil [newTextEdit entireDocRange formatted]]
              (setDirtyFiles (fun s => s ∖ {[path]}) st)),
           [WaitUntil [newTextEdit entireDocRange formatted]].
    split; [reflexivity|]. split; [reflexivity|].
    split; [apply not_elem_of_removed|]. split; [reflexivity|].
    split; [|done]. intros _. split; [reflexivity|].
    unfold savedText. cbn. by apply replaceRange_entireDocRange.
  - exists (setDirtyFiles (fun s => s ∖ {[path]}) st), [].
    split; [reflexivity|]. split; [reflexivity|].
    split; [apply not_elem_of_removed|]. split; [cbn; by rewrite app_nil_r|].
    split; [done|]. intros _. by split.
  - exists (setDirtyFiles (fun s => s ∖ {[path]}) st), [].
    split; [reflexivity|]. split; [reflexivity|].
    split; [apply not_elem_of_removed|]. split; [cbn; by rewrite app_nil_r|].
    split; [done|]. intros _. by split.
Qed.

(** C5. Closing a document of the project whose path is in the dirty set
    clears the store's unsaved content for that path, once, and removes
    the path from the dirty set. Closing a document whose path is not in
    the dirty set calls nothing and changes nothing. *)
Theorem discard_on_close_clears_store projectID document st :
  let path := fromUtopiaURI cm (uri document) in
  (isUtopiaDocument projectID document = true ->
   path ∈ dirtyFiles st ->
   exists st1,
     onDidCloseTextDocument cm projectID document st = Some (tt, st1)
     /\ calls st1 = (calls st ++ [ClearFileUnsavedContent path])%list
     /\ dirtyFiles st1 = dirtyFiles st ∖ {[path]}
     /\ (path ∉ dirtyFiles st1))
  /\ (path ∉ dirtyFiles st ->
      onDidCloseTextDocument cm projectID document st = Some (tt, st)).
Proof.
  intros path. unfold onDidCloseTextDocument. fold path. split.
  - intros Hscheme Hdirty. rewrite Hscheme. run_task.
    destruct (decide _) as [_|Hno]; [|by destruct Hno].
    eexists; split; [reflexivity|]. cbn.
    split; [reflexivity|]. split; [reflexivity|]. apply not_elem_of_removed.
  - intros Hclean. destruct (isUtopiaDocument _ _); [|done]. run_task.
    by destruct (decide _).
Qed.

End Reconciler.

(** ** The translation of store errors *)

Section Errors.
Context (cm : Common).

(** C8. The four known codes are translated, each to its own error and
    each with the adjusted path; an error with any other code is not
    translated: the call throws. *)
Theorem toFileSystemProviderError_translation projectID error :
  let path := toUtopiaPath cm projectID (fsPath error) in
  (fsCode error = "ENOENT" ->
   toFileSystemProviderError cm projectID error = Returned (FileNotFound path))
  /\ (fsCode error = "EISDIR" ->
      toFileSystemProviderError cm projectID error = Returned (FileIsADirectory path))
  /\ (fsCode error = "ENOTDIR" ->
      toFileSystemProviderError cm projectID error = Returned (FileNotADirectory path))
  /\ (fsCode error = "EEXIST" ->
      toFileSystemProviderError cm projectID error = Returned (FileExists path))
  /\ (fsCode error <> "ENOENT" -> fsCode error <> "EISDIR" ->
      fsCode error <> "ENOTDIR" -> fsCode error <> "EEXIST" ->
      toFileSystemProviderError cm projectID error = Thrown (UnhandledFSError error)).
Proof.
  intros path. unfold toFileSystemProviderError. fold path.
  repeat split.
  1-4: by intros ->.
  intros H1 H2 H3 H4.
  apply String.eqb_neq in H1, H2, H3, H4. by rewrite H1, H2, H3, H4.
Qed.

End Errors.

(** ** The decoration mirror *)

Lemma rangeTypeKey_inj t1 t2 : rangeTypeKey t1 = rangeTypeKey t2 -> t1 = t2.
Proof. by destruct t1, t2. Qed.

Lemma grouped_addDecoration result (range : DecorationRange) filename key :
  grouped (addDecoration result range) filename key
  = (grouped result filename key
     ++ filter (fun r : DecorationRange =>
                  filePath r = filename /\ rangeTypeKey (rangeType r) = key) [range])%list.
Proof.
  unfold grouped, addDecoration. rewrite filter_cons, filter_nil.
  destruct (decide (filePath range = filename)) as [<-|Hfile].
  - rewrite lookup_insert_eq. cbn [from_option id].
    destruct (decide (rangeTypeKey (rangeType range) = key)) as [<-|Hkey].
    + rewrite lookup_insert_eq. cbn [from_option id].
      rewrite decide_True by done.
      destruct (result !! filePath range) as [forFilename|]; cbn [from_option id].
      * by destruct (forFilename !! _).
      * by rewrite lookup_empty.
    + rewrite lookup_insert_ne by done.
      rewrite decide_False by (intros [_ ?]; done).
      rewrite app_nil_r.
      by destruct (result !! filePath range).
  - rewrite lookup_insert_ne by done.
    rewrite decide_False by (intros [? _]; done).
    by rewrite app_nil_r.
Qed.

Lemma grouped_foldl decorations : forall result filename key,
  grouped (foldl addDecoration result decorations) filename key
  = (grouped result filename key
     ++ filter (fun r : DecorationRange =>
                  filePath r = filename /\ rangeTypeKey (rangeType r) = key)
               decorations)%list.
Proof.
  induction decorations as [|range rest IH]; intros result filename key.
  - by rewrite app_nil_r.
  - cbn [foldl]. rewrite IH, grouped_addDecoration, <- app_assoc.
    f_equal. rewrite (filter_cons _ range rest), !filter_cons, filter_nil.
    by destruct (decide _).
Qed.

(** What is stored under a file name and a key is the input filtered by
    them, in the order of the input. *)
Lemma grouped_getDecorations decorations filename key :
  grouped (getDecorationsByFilenameAndType decorations) filename key
  = filter (fun r : DecorationRange =>
              filePath r = filename /\ rangeTypeKey (rangeType r) = key) decorations.
Proof.
  unfold getDecorationsByFilenameAndType. rewrite grouped_foldl.
  unfold grouped. by rewrite lookup_empty.
Qed.

Lemma grouped_by_rangeType decorations filename t :
  grouped (getDecorationsByFilenameAndType decorations) filename (rangeTypeKey t)
  = filter (fun r : DecorationRange => filePath r = filename /\ rangeType r = t)
           decorations.
Proof.
  rewrite grouped_getDecorations. apply list_filter_iff.
  intros r. split; intros [Hf Ht]; split; try done.
  - by apply rangeTypeKey_inj.
  - by rewrite Ht.
Qed.

Section Decorations.
Context (env : nat -> Host).

Lemma updateDecorations_calls decorations st :
  updateDecorations env decorations st
  = Some (tt, record
      (flat_map (fun visibleEditor =>
         let filename := path (uri (document visibleEditor)) in
         [SetDecorations visibleEditor highlightDecorationType
            (map (fun r : DecorationRange => getVSCodeRange r)
               (filter (fun r : DecorationRange =>
                          filePath r = filename /\ rangeType r = highlight)
                       decorations));
          SetDecorations visibleEditor selectionDecorationType
            (map (fun r : DecorationRange => getVSCodeRange r)
               (filter (fun r : DecorationRange =>
                          filePath r = filename /\ rangeType r = selection_)
                       decorations))])
         (visibleTextEditors (env (now st)))) st).
Proof.
  unfold updateDecorations. run_task.
  apply forEach_calls. intros visibleEditor st'.
  cbn [allDecorationRangeTypes forEach]. run_task.
  rewrite record_record. cbn [app getVSCodeDecorationType].
  rewrite <- !grouped_by_rangeType. reflexivity.
Qed.

(** C6. For each visible editor, in order, [updateDecorations] makes one
    replace-all call for the highlight type and one for the selection
    type, and nothing else; the ranges of a call are those of the input
    ranges with the editor's file path and the call's type, in the order
    of the input, so a pair without input ranges gets the empty list.
    With the one selection range of [a.txt] and editors on [a.txt] and
    [b.txt], the calls are an empty highlight and a one-range selection
    for [a.txt], and two empty calls for [b.txt]. *)
Theorem updateDecorations_replaces_all decorations st :
  updateDecorations env decorations st
  = Some (tt, record
      (flat_map (fun visibleEditor =>
         let filename := path (uri (document visibleEditor)) in
         [SetDecorations visibleEditor highlightDecorationType
            (map (fun r : DecorationRange => getVSCodeRange r)
               (filter (fun r : DecorationRange =>
                          filePath r = filename /\ rangeType r = highlight)
                       decorations));
          SetDecorations visibleEditor selectionDecorationType
            (map (fun r : DecorationRange => getVSCodeRange r)
               (filter (fun r : DecorationRange =>
                          filePath r = filename /\ rangeType r = selection_)
                       decorations))])
         (visibleTextEditors (env (now st)))) st)
  /\ forall editorA editorB,
       visibleTextEditors (env (now st)) = [editorA; editorB] ->
       path (uri (document editorA)) = "a.txt" ->
       path (uri (document editorB)) = "b.txt" ->
       updateDecorations env
         [mkDecorationRange selection_ (mkBoundsInFile "a.txt" (mkBounds 0 0 0 5))] st
       = Some (tt, record
           [SetDecorations editorA highlightDecorationType [];
            SetDecorations editorA selectionDecorationType
              [mkRange (mkPosition 0 0) (mkPosition 0 5)];
            SetDecorations editorB highlightDecorationType [];
            SetDecorations editorB selectionDecorationType []] st).
Proof.
  split; [apply updateDecorations_calls|].
  intros editorA editorB Hvisible HA HB.
  rewrite updateDecorations_calls, Hvisible. cbn [flat_map app].
  rewrite HA, HB. reflexivity.
Qed.

End Decorations.

(** ** Opening a file *)

Lemma elapse_elapse n m cs ds st :
  elapse n cs (elapse m ds st) = elapse (m + n) (ds ++ cs)%list st.
Proof. unfold elapse; cbn. f_equal; [lia | by rewrite app_assoc]. Qed.

Lemma tick_record c st : tick (record [c] st) = elapse 1 [c] st.
Proof. unfold tick, record, elapse; cbn. f_equal. lia. Qed.

Section OpenFile.
Context (cm : Common) (env : nat -> Host).

(** With [n] retries allowed and a file that never exists, [openFile]
    checks [n + 1] times, waits [n] times and reports failure. *)
Lemma openFile_never_exists fileUri n : forall st,
  (forall t, storeExists (env t) (fromUtopiaURI cm fileUri) = false) ->
  openFile cm env fileUri (Z.of_nat n) st
  = Some (false,
          elapse (2 * n + 1) (attemptsLog (fromUtopiaURI cm fileUri) n) st).
Proof.
  induction n as [|n IH]; intros st Hnever.
  - rewrite openFile_equation_1. run_task. cbv beta zeta. rewrite Hnever.
    destruct (Z_gt_dec _ _) as [Hgt|_]; [lia|].
    run_task. by rewrite tick_record.
  - rewrite openFile_equation_1. run_task. cbv beta zeta. rewrite Hnever.
    destruct (Z_gt_dec _ _) as [_|Hle]; [|lia].
    run_task. replace (Z.of_nat (S n) - 1) with (Z.of_nat n) by lia.
    rewrite IH by done. rewrite !tick_record, !elapse_elapse.
    do 2 f_equal. f_equal. lia.
Qed.

(** C7. A file whose existence check never succeeds: [openFile], called
    with its default retry count, checks once, then waits and checks
    again five times, and returns [false]. The log shows six checks and
    five delays, and nothing after the sixth check. *)
Theorem openFile_gives_up_after_five_retries fileUri st :
  let filePath := fromUtopiaURI cm fileUri in
  (forall t, storeExists (env t) filePath = false) ->
  exists st1,
    openFile cm env fileUri defaultRetries st = Some (false, st1)
    /\ calls st1
       = (calls st
          ++ [Exists filePath;
              SetTimeout 100; Exists filePath;
              SetTimeout 100; Exists filePath;
              SetTimeout 100; Exists filePath;
              SetTimeout 100; Exists filePath;
              SetTimeout 100; Exists filePath])%list
    /\ now st1 = (now st + 11)%nat
    /\ dirtyFiles st1 = dirtyFiles st
    /\ incomingFileChanges st1 = incomingFileChanges st.
Proof.
  intros filePath Hnever.
  change defaultRetries with (Z.of_nat 5).
  rewrite (openFile_never_exists fileUri 5 st Hnever).
  eexists; split; [reflexivity|]. by cbn.
Qed.

End OpenFile.

(** ** Revealing a range *)

Lemma newRange_lines a b :
  line a <= line b ->
  line (start (newRange a b)) = line a /\ line (end_ (newRange a b)) = line b.
Proof.
  intros Hle. unfold newRange, isBefore.
  destruct (Z.ltb_spec (line a) (line b)); [done|].
  destruct (Z.ltb_spec (line b) (line a)); [lia|].
  destruct (character a <? character b); cbn; lia.
Qed.

Lemma newRange_same_line a b n :
  line a = n -> line b = n ->
  line (start (newRange a b)) = n /\ line (end_ (newRange a b)) = n.
Proof.
  intros Ha Hb. destruct (newRange_lines a b) as [H1 H2]; [lia|]. lia.
Qed.

Lemma rangesIntersectLinesOnly_spec first second :
  rangesIntersectLinesOnly first second = true
  <-> line (start first) <= line (end_ second)
      /\ line (start second) <= line (end_ first).
Proof.
  unfold rangesIntersectLinesOnly. rewrite andb_true_iff, !Z.leb_le. tauto.
Qed.

Lemma rangesIntersectLinesOnly_spec_false first second :
  ~ (line (start first) <= line (end_ second)
     /\ line (start second) <= line (end_ first)) ->
  rangesIntersectLinesOnly first second = false.
Proof.
  intros Hapart. apply not_true_is_false.
  by rewrite rangesIntersectLinesOnly_spec.
Qed.

Lemma existsb_elem_of {A} (f : A -> bool) (l : list A) :
  existsb f l = true <-> exists x, x ∈ l /\ f x = true.
Proof.
  rewrite existsb_exists. split; intros (x & Hx & Hf); exists x; split; try done.
  - by apply list_elem_of_In.
  - by apply list_elem_of_In.
Qed.

Section Reveal.
Context (cm : Common) (env : nat -> Host).

Lemma reveal_skipped fuel root b st :
  focused (env (now st)) = true ->
  revealRangeIfPossible cm env (S fuel) root b false st = Some (tt, st).
Proof. intros Hf. cbn [revealRangeIfPossible]. run_task. by rewrite Hf. Qed.

Lemma reveal_unfocused_as_forced fuel root b st :
  focused (env (now st)) = false ->
  revealRangeIfPossible cm env fuel root b false st
  = revealRangeIfPossible cm env fuel root b true st.
Proof.
  intros Hf. destruct fuel as [|fuel]; [done|].
  cbn [revealRangeIfPossible]. run_task. by rewrite Hf.
Qed.

Lemma reveal_visible fuel root (b : BoundsInFile) force st visibleEditor :
  force || negb (focused (env (now st))) = true ->
  List.find (fun editor => String.eqb (path (uri (document editor))) (filePath b))
    (visibleTextEditors (env (now st))) = Some visibleEditor ->
  let current := selectionRange (selection visibleEditor) in
  let target := getVSCodeRangeForScrolling b in
  let alreadySelected := rangesIntersectLinesOnly current target in
  let alreadyVisible :=
    existsb (fun r => contains r current) (visibleRanges visibleEditor) in
  revealRangeIfPossible cm env (S fuel) root b force st
  = Some (tt, record
      ((if alreadySelected then []
        else [SetSelection visibleEditor
                (newSelection (start (getVSCodeRange b)) (start (getVSCodeRange b)))])
       ++ (if alreadySelected && alreadyVisible then []
           else [RevealRange visibleEditor target InCenterIfOutsideViewport]))%list st).
Proof.
  intros Hgate Hfind current target alreadySelected alreadyVisible.
  cbn [revealRangeIfPossible]. run_task. rewrite Hgate, Hfind.
  fold current target. fold alreadySelected. fold alreadyVisible.
  destruct alreadySelected; cbn [negb andb]; run_task.
  - destruct alreadyVisible; cbn [negb]; run_task.
    + by rewrite record_nil.
    + reflexivity.
  - by rewrite record_record.
Qed.

Lemma handleMessage_selected fuel root b st :
  getConfiguration (env (now st)) FollowSelectionConfigKey = JsBoolean true ->
  handleMessage cm env fuel root (SELECTED_ELEMENT_CHANGED b) st
  = revealRangeIfPossible cm env fuel root b false st.
Proof.
  intros Hcfg. unfold handleMessage, getFollowSelectionEnabledConfig.
  run_task. by rewrite Hcfg.
Qed.

(** C1 (as amended). A selected-element message handled with
    follow-selection enabled, hence without the force flag: when the
    window has focus, nothing at all is done; when the window does not
    have focus, the message is handled exactly as a forced reveal is,
    and so, with the target's document in a visible editor whose
    selection does not share a line with the target, the selection is
    moved to the start of the target and the target is scrolled into
    view. *)
Theorem follow_selection_reveals_only_without_focus fuel root (b : BoundsInFile) st :
  getConfiguration (env (now st)) FollowSelectionConfigKey = JsBoolean true ->
  (focused (env (now st)) = true ->
   handleMessage cm env (S fuel) root (SELECTED_ELEMENT_CHANGED b) st = Some (tt, st))
  /\ (focused (env (now st)) = false ->
      handleMessage cm env fuel root (SELECTED_ELEMENT_CHANGED b) st
      = revealRangeIfPossible cm env fuel root b true st
      /\ forall visibleEditor,
           List.find (fun editor =>
                        String.eqb (path (uri (document editor))) (filePath b))
             (visibleTextEditors (env (now st))) = Some visibleEditor ->
           ~ (line (start (selectionRange (selection visibleEditor)))
                <= line (end_ (getVSCodeRangeForScrolling b))
              /\ line (start (getVSCodeRangeForScrolling b))
                 <= line (end_ (selectionRange (selection visibleEditor)))) ->
           handleMessage cm env (S fuel) root (SELECTED_ELEMENT_CHANGED b) st
           = Some (tt, record
               [SetSelection visibleEditor
                  (newSelection (start (getVSCodeRange b)) (start (getVSCodeRange b)));
                RevealRange visibleEditor (getVSCodeRangeForScrolling b)
                  InCenterIfOutsideViewport] st)).
Proof.
  intros Hcfg. split.
  - intros Hfocused. rewrite (handleMessage_selected _ _ _ _ Hcfg).
    by apply reveal_skipped.
  - intros Hunfocused. split.
    + rewrite (handleMessage_selected _ _ _ _ Hcfg).
      by apply reveal_unfocused_as_forced.
    + intros visibleEditor Hfind Hapart.
      rewrite (handleMessage_selected _ _ _ _ Hcfg).
      rewrite (reveal_visible fuel root b false st visibleEditor); [|by rewrite Hunfocused|done].
      apply rangesIntersectLinesOnly_spec_false in Hapart.
      cbv zeta. by rewrite Hapart.
Qed.

(** C9 (as amended). A reveal that reaches an editor already showing the
    target's document. Whether the target counts as selected depends on
    lines only: the selection's line span and the target's must
    overlap, whatever the columns. With an overlap the selection is not
    moved; without one it is moved to the start of the target. The
    target is scrolled into view unless the lines overlap and the
    current selection lies within one of the editor's visible ranges;
    whether the target itself is visible is not looked at. For a
    selection on line 3 and a target on line 3 the selection is not
    moved, and there is a scroll exactly when the selection is not
    within a visible range. *)
Theorem reveal_in_visible_editor fuel root (b : BoundsInFile) force st visibleEditor :
  let current := selectionRange (selection visibleEditor) in
  let target := getVSCodeRangeForScrolling b in
  let linesOverlap :=
    line (start current) <= line (end_ target)
    /\ line (start target) <= line (end_ current) in
  let selectionVisible :=
    exists r, r ∈ visibleRanges visibleEditor /\ contains r current = true in
  force || negb (focused (env (now st))) = true ->
  List.find (fun editor => String.eqb (path (uri (document editor))) (filePath b))
    (visibleTextEditors (env (now st))) = Some visibleEditor ->
  exists moves scrolls,
    revealRangeIfPossible cm env (S fuel) root b force st
    = Some (tt, record (moves ++ scrolls)%list st)
    /\ (linesOverlap -> moves = [])
    /\ (~ linesOverlap ->
        moves = [SetSelection visibleEditor
                   (newSelection (start (getVSCodeRange b)) (start (getVSCodeRange b)))])
    /\ (linesOverlap /\ selectionVisible -> scrolls = [])
    /\ (~ (linesOverlap /\ selectionVisible) ->
        scrolls = [RevealRange visibleEditor target InCenterIfOutsideViewport])
    /\ (line (anchor (selection visibleEditor)) = 3 ->
        line (active (selection visibleEditor)) = 3 ->
        startLine b = 3 -> endLine b = 3 ->
        moves = []
        /\ (selectionVisible -> scrolls = [])
        /\ (~ selectionVisible ->
            scrolls = [RevealRange visibleEditor target InCenterIfOutsideViewport])).
Proof.
  intros current target linesOverlap selectionVisible Hgate Hfind.
  rewrite (reveal_visible fuel root b force st visibleEditor Hgate Hfind).
  cbv zeta. fold current target.
  set (alreadySelected := rangesIntersectLinesOnly current target).
  set (alreadyVisible :=
         existsb (fun r => contains r current) (visibleRanges visibleEditor)).
  assert (Hsel : alreadySelected = true <-> linesOverlap)
    by apply rangesIntersectLinesOnly_spec.
  assert (Hvis : alreadyVisible = true <-> selectionVisible)
    by apply existsb_elem_of.
  assert (Hmoves_no : linesOverlap -> alreadySelected = true) by apply Hsel.
  assert (Hmoves : ~ linesOverlap -> alreadySelected = false).
  { intros Hno. apply not_true_is_false. by rewrite Hsel. }
  assert (Hscroll_no : linesOverlap /\ selectionVisible ->
                       alreadySelected && alreadyVisible = true).
  { intros [H1 H2]. apply andb_true_iff. split; [by apply Hsel | by apply Hvis]. }
  assert (Hscroll : ~ (linesOverlap /\ selectionVisible) ->
                    alreadySelected && alreadyVisible = false).
  { intros Hno. apply not_true_is_false. rewrite andb_true_iff, Hsel, Hvis. done. }
  eexists _, _. split; [reflexivity|].
  split; [by intros ->%Hmoves_no|].
  split; [by intros ->%Hmoves|].
  split; [by intros ->%Hscroll_no|].
  split; [by intros ->%Hscroll|].
  intros Hanchor Hactive Hstart Hend.
  assert (Hoverlap : linesOverlap).
  { unfold linesOverlap, current, target, selectionRange, getVSCodeRangeForScrolling.
    destruct (newRange_same_line (anchor (selection visibleEditor))
                (active (selection visibleEditor)) 3 Hanchor Hactive) as [-> ->].
    destruct (newRange_same_line (mkPosition (startLine b) 0)
                (mkPosition (endLine b) (endCol b)) 3 Hstart Hend) as [-> ->].
    lia. }
  split; [by rewrite (Hmoves_no Hoverlap)|]. split.
  - intros Hyes. by rewrite (Hscroll_no (conj Hoverlap Hyes)).
  - intros Hno. rewrite Hscroll; [done|]. by intros [_ ?].
Qed.

End Reveal.

(** ** The theorems at sample inputs *)

Lemma no_echo_after_applied_change_witness :
  let file := mkStoredFile "saved" (Some "edited") in
  let whilePending :=
    [WillSaveTextDocument (mkWillSaveEvent (sampleDocument true) AfterDelay);
     ReadResolved sampleResource (Some file)] in
  let afterwards :=
    [DidChangeTextDocument (mkChangeEvent (sampleDocument false));
     ApplyEditResolved sampleResource "edited" true] in
  exists marked pending applied echoed echoedLate,
    updateDirtyContent_afterRead sampleCommon sampleResource (Some file) initialState
    = Some (Some "edited", marked)
    /\ runSteps sampleCommon sampleProject whilePending marked = Some (tt, pending)
    /\ (updateDirtyContent_afterApplyEdit sampleCommon sampleResource "edited" true >>
        runSteps sampleCommon sampleProject afterwards) pending = Some (tt, applied)
    /\ onDidChangeTextDocument sampleCommon sampleProject
         (mkChangeEvent echoedDocument) pending = Some (tt, echoed)
    /\ calls echoed = calls pending
    /\ ("/src/app.js" ∉ incomingFileChanges echoed)
    /\ onDidChangeTextDocument sampleCommon sampleProject
         (mkChangeEvent echoedDocument) applied = Some (tt, echoedLate)
    /\ calls echoedLate = calls applied
    /\ ("/src/app.js" ∉ incomingFileChanges echoedLate).
Proof.
  intros file whilePending afterwards.
  assert (Hpending : Forall (sparesMark sampleCommon sampleProject "/src/app.js")
                       whilePending)
    by (repeat constructor).
  assert (Hafterwards : Forall (sparesMark sampleCommon sampleProject "/src/app.js")
                          afterwards).
  { constructor; [|constructor; [by left|constructor]].
    intros (_ & Hdirty & _). discriminate Hdirty. }
  destruct (no_echo_after_applied_change sampleCommon (fun _ => hostWithUnsaved true)
              sampleProject sampleResource file "edited" whilePending afterwards
              initialState eq_refl Hpending Hafterwards)
    as [(marked & pending & applied & H1 & _ & H2 & H3 & H4) _].
  destruct (H4 pending (or_introl eq_refl)) as [_ Hecho].
  destruct (Hecho (mkChangeEvent echoedDocument) eq_refl) as [Hecho' _].
  destruct (Hecho' eq_refl eq_refl) as (echoed & H5 & H6 & H7 & _).
  destruct (H4 applied (or_intror eq_refl)) as [_ Hlate].
  destruct (Hlate (mkChangeEvent echoedDocument) eq_refl) as [Hlate' _].
  destruct (Hlate' eq_refl eq_refl) as (echoedLate & H8 & H9 & H10 & _).
  exists marked, pending, applied, echoed, echoedLate.
  repeat split; assumption.
Defined.

(** C2, as stated, fails in two ways. First, the replacement is applied and
    the path is marked; the next notification for the path comes from a
    document of the project that is not dirty; the handler does nothing,
    and the path is still marked afterwards. Second, two changes of the
    path are in flight at once: both mark the path, the first edit is
    refused and unmarks it, the second is applied; the dirty notification
    of the applied change finds no mark and is written to the store. *)
Lemma applied_change_stays_marked_or_echoes :
  (exists st1 st2,
     updateDirtyContent sampleCommon (fun _ => hostWithUnsaved true)
       sampleResource initialState = Some (tt, st1)
     /\ fromUtopiaURI sampleCommon (uri (sampleDocument false)) = "/src/app.js"
     /\ onDidChangeTextDocument sampleCommon sampleProject
          (mkChangeEvent (sampleDocument false)) st1 = Some (tt, st2)
     /\ ("/src/app.js" ∈ incomingFileChanges st2))
  /\ (let file := mkStoredFile "saved" (Some "edited") in
      let raced :=
        mkState ∅ ∅ [] {[sampleResource := "edited"]} 2
          [ApplyEdit sampleResource entireDocRange "edited";
           ApplyEdit sampleResource entireDocRange "edited"] in
      runSteps sampleCommon sampleProject
        [ReadResolved sampleResource (Some file);
         ReadResolved sampleResource (Some file);
         ApplyEditResolved sampleResource "edited" false;
         ApplyEditResolved sampleResource "edited" true] initialState
      = Some (tt, raced)
      /\ fromUtopiaURI sampleCommon (uri echoedDocument) = "/src/app.js"
      /\ isUtopiaDocument sampleProject echoedDocument = true
      /\ isDirty echoedDocument = true
      /\ onDidChangeTextDocument sampleCommon sampleProject
           (mkChangeEvent echoedDocument) raced
         = Some (tt,
             mkState {["/src/app.js"]} ∅ [] {[sampleResource := "edited"]} 2
               [ApplyEdit sampleResource entireDocRange "edited";
                ApplyEdit sampleResource entireDocRange "edited";
                WriteFileUnsavedContentAsUTF8 "/src/app.js" "edited"])).
Proof.
  split.
  - eexists _, _.
    split; [by rewrite (updateDirtyContent_unsaved sampleCommon _ sampleResource
                          (mkStoredFile "saved" (Some "edited")) "edited")|].
    split; [reflexivity|]. split; [apply onDidChange_ignored; by right|].
    cbn. apply elem_of_union_r. by apply elem_of_singleton.
  - cbv zeta. split; [vm_compute; reflexivity|].
    split; [reflexivity|]. split; [reflexivity|]. split; [reflexivity|].
    vm_compute. reflexivity.
Qed.

Lemma echo_resumes_after_failed_change_witness :
  storeRead (hostWithUnsaved false) (fromUtopiaURI sampleCommon sampleResource)
  = Some (mkStoredFile "saved" (Some "edited"))
  /\ applyEditResult (hostWithUnsaved false) sampleResource = false
  /\ exists st1 st2,
       updateDirtyContent sampleCommon (fun _ => hostWithUnsaved false)
         sampleResource initialState = Some (tt, st1)
       /\ ("/src/app.js" ∉ incomingFileChanges st1)
       /\ onDidChangeTextDocument sampleCommon sampleProject
            (mkChangeEvent (sampleDocument true)) st1 = Some (tt, st2)
       /\ calls st2
          = (calls st1 ++ [WriteFileUnsavedContentAsUTF8 "/src/app.js" "typed"])%list.
Proof.
  split; [reflexivity|]. split; [reflexivity|].
  destruct (echo_resumes_after_failed_change sampleCommon
              (fun _ => hostWithUnsaved false) sampleProject sampleResource
              (mkStoredFile "saved" (Some "edited")) "edited" initialState
              eq_refl eq_refl eq_refl) as (st1 & H1 & H2 & _ & H3).
  destruct (H3 (mkChangeEvent (sampleDocument true)) eq_refl) as [H4 _].
  destruct (H4 eq_refl eq_refl) as (st2 & H5 & H6).
  exists st1, st2. repeat split; assumption.
Defined.

(** C3, as stated, fails. The replacement is refused and the mark is
    removed; the next notification for the path comes from a document of
    the project that is not dirty; nothing is written to the store: the log
    holds the read and the refused edit only. *)
Lemma clean_notification_is_not_written_back :
  exists st1 st2,
    updateDirtyContent sampleCommon (fun _ => hostWithUnsaved false)
      sampleResource initialState = Some (tt, st1)
    /\ fromUtopiaURI sampleCommon (uri (sampleDocument false)) = "/src/app.js"
    /\ onDidChangeTextDocument sampleCommon sampleProject
         (mkChangeEvent (sampleDocument false)) st1 = Some (tt, st2)
    /\ calls st2
       = [ReadFileAsUTF8 "/src/app.js";
          ApplyEdit sampleResource entireDocRange "edited"].
Proof.
  eexists _, _.
  split; [by rewrite (updateDirtyContent_unsaved sampleCommon _ sampleResource
                        (mkStoredFile "saved" (Some "edited")) "edited")|].
  split; [reflexivity|]. split; [apply onDidChange_ignored; by right|].
  reflexivity.
Qed.

Lemma updateDirtyContent_without_unsaved_content_witness :
  storeRead hostWithoutUnsaved (fromUtopiaURI sampleCommon sampleResource)
  = Some (mkStoredFile "saved" None)
  /\ exists st1,
       updateDirtyContent sampleCommon (fun _ => hostWithoutUnsaved)
         sampleResource dirtyState = Some (tt, st1)
       /\ incomingFileChanges st1 = incomingFileChanges dirtyState
       /\ documents st1 = documents dirtyState
       /\ calls st1 = [ReadFileAsUTF8 "/src/app.js"].
Proof.
  split; [reflexivity|].
  destruct (updateDirtyContent_without_unsaved_content sampleCommon
              (fun _ => hostWithoutUnsaved) sampleResource
              (mkStoredFile "saved" None) dirtyState eq_refl eq_refl)
    as (st1 & H1 & H2 & _ & H3 & H4).
  exists st1. repeat split; assumption.
Defined.

Lemma save_clears_dirty_and_formats_manual_saves_witness :
  isUtopiaDocument sampleProject (sampleDocument true) = true
  /\ Z.of_nat (String.length (getText (sampleDocument true))) < Number_MAX_VALUE
  /\ exists st1 cs,
       onWillSaveTextDocument sampleCommon sampleProject
         (mkWillSaveEvent (sampleDocument true) Manual) dirtyState = Some (tt, st1)
       /\ ("/src/app.js" ∉ dirtyFiles st1)
       /\ calls st1 = (calls dirtyState ++ cs)%list
       /\ cs = [WaitUntil [newTextEdit entireDocRange "typed;"]]
       /\ savedText (sampleDocument true) cs = "typed;".
Proof.
  split; [reflexivity|]. split; [reflexivity|].
  destruct (save_clears_dirty_and_formats_manual_saves sampleCommon sampleProject
              (mkWillSaveEvent (sampleDocument true) Manual) dirtyState
              eq_refl eq_refl) as (st1 & cs & H1 & _ & H2 & H3 & H4 & _).
  destruct (H4 eq_refl) as [H5 H6].
  exists st1, cs. repeat split; assumption.
Defined.

(** C4, as stated, fails. A save made after a delay, of a dirty document of
    the project: the path leaves the dirty set, but no edit is handed over,
    and the text that is saved is the text as typed, not the formatter's
    output. *)
Lemma save_after_delay_is_not_formatted :
  exists st1,
    onWillSaveTextDocument sampleCommon sampleProject
      (mkWillSaveEvent (sampleDocument true) AfterDelay) dirtyState = Some (tt, st1)
    /\ calls st1 = []
    /\ savedText (sampleDocument true) (calls st1) = "typed"
    /\ applyPrettier sampleCommon (getText (sampleDocument true)) false = "typed;"
    /\ savedText (sampleDocument true) (calls st1)
       <> applyPrettier sampleCommon (getText (sampleDocument true)) false.
Proof.
  exists (setDirtyFiles (fun s => s ∖ {["/src/app.js"]}) dirtyState).
  split; [reflexivity|]. by repeat split.
Qed.

Lemma discard_on_close_clears_store_witness :
  isUtopiaDocument sampleProject (sampleDocument true) = true
  /\ ("/src/app.js" ∈ dirtyFiles dirtyState)
  /\ ("/src/app.js" ∉ dirtyFiles initialState)
  /\ (exists st1,
        onDidCloseTextDocument sampleCommon sampleProject (sampleDocument true)
          dirtyState = Some (tt, st1)
        /\ calls st1 = [ClearFileUnsavedContent "/src/app.js"]
        /\ ("/src/app.js" ∉ dirtyFiles st1))
  /\ onDidCloseTextDocument sampleCommon sampleProject (sampleDocument true)
       initialState = Some (tt, initialState).
Proof.
  assert (Hin : "/src/app.js" ∈ dirtyFiles dirtyState)
    by (unfold dirtyState; cbn [dirtyFiles]; apply elem_of_singleton_2, eq_refl).
  assert (Hout : "/src/app.js" ∉ dirtyFiles initialState) by apply not_elem_of_empty.
  split; [reflexivity|]. split; [exact Hin|]. split; [exact Hout|]. split.
  - destruct (discard_on_close_clears_store sampleCommon sampleProject
                (sampleDocument true) dirtyState) as [H _].
    destruct (H eq_refl Hin) as (st1 & H1 & H2 & _ & H3).
    exists st1. repeat split; assumption.
  - destruct (discard_on_close_clears_store sampleCommon sampleProject
                (sampleDocument true) initialState) as [_ H].
    exact (H Hout).
Defined.

Lemma toFileSystemProviderError_translation_witness :
  toFileSystemProviderError sampleCommon sampleProject (mkFSError "/src" "EISDIR")
  = Returned (FileIsADirectory "project:/src")
  /\ toFileSystemProviderError sampleCommon sampleProject (mkFSError "/src" "EACCES")
     = Thrown (UnhandledFSError (mkFSError "/src" "EACCES")).
Proof.
  split.
  - destruct (toFileSystemProviderError_translation sampleCommon sampleProject
                (mkFSError "/src" "EISDIR")) as (_ & H & _).
    exact (H eq_refl).
  - destruct (toFileSystemProviderError_translation sampleCommon sampleProject
                (mkFSError "/src" "EACCES")) as (_ & _ & _ & _ & H).
    apply H; discriminate.
Defined.

Lemma updateDecorations_replaces_all_witness :
  let editorA := editorAt "a.txt" 0 [] in
  let editorB := editorAt "b.txt" 0 [] in
  updateDecorations (fun _ => hostShowing true [editorA; editorB])
    [sampleDecoration] initialState
  = Some (tt, record
      [SetDecorations editorA highlightDecorationType [];
       SetDecorations editorA selectionDecorationType
         [mkRange (mkPosition 0 0) (mkPosition 0 5)];
       SetDecorations editorB highlightDecorationType [];
       SetDecorations editorB selectionDecorationType []] initialState).
Proof.
  intros editorA editorB.
  destruct (updateDecorations_replaces_all
              (fun _ => hostShowing true [editorA; editorB])
              [sampleDecoration] initialState) as [_ H].
  exact (H editorA editorB eq_refl eq_refl eq_refl).
Defined.

Lemma openFile_gives_up_after_five_retries_witness :
  (forall t : nat,
     storeExists ((fun _ => hostWithoutUnsaved) t)
       (fromUtopiaURI sampleCommon sampleResource) = false)
  /\ exists st1,
       openFile sampleCommon (fun _ => hostWithoutUnsaved) sampleResource
         defaultRetries initialState = Some (false, st1)
       /\ calls st1
          = [Exists "/src/app.js";
             SetTimeout 100; Exists "/src/app.js";
             SetTimeout 100; Exists "/src/app.js";
             SetTimeout 100; Exists "/src/app.js";
             SetTimeout 100; Exists "/src/app.js";
             SetTimeout 100; Exists "/src/app.js"].
Proof.
  split; [intros t; reflexivity|].
  destruct (openFile_gives_up_after_five_retries sampleCommon
              (fun _ => hostWithoutUnsaved) sampleResource initialState
              (fun _ => eq_refl)) as (st1 & H1 & H2 & _).
  exists st1. split; assumption.
Defined.

Lemma follow_selection_reveals_only_without_focus_witness :
  let editor := editorAt "/src/app.js" 0 [] in
  handleMessage sampleCommon (fun _ => hostShowing true [editor]) 1 sampleRoot
    (SELECTED_ELEMENT_CHANGED sampleBounds) initialState = Some (tt, initialState)
  /\ handleMessage sampleCommon (fun _ => hostShowing false [editor]) 1 sampleRoot
       (SELECTED_ELEMENT_CHANGED sampleBounds) initialState
     = Some (tt, record
         [SetSelection editor (newSelection (mkPosition 10 4) (mkPosition 10 4));
          RevealRange editor (mkRange (mkPosition 10 0) (mkPosition 12 8))
            InCenterIfOutsideViewport] initialState).
Proof.
  intros editor. split.
  - destruct (follow_selection_reveals_only_without_focus sampleCommon
                (fun _ => hostShowing true [editor]) 0 sampleRoot sampleBounds
                initialState eq_refl) as [H _].
    exact (H eq_refl).
  - destruct (follow_selection_reveals_only_without_focus sampleCommon
                (fun _ => hostShowing false [editor]) 0 sampleRoot sampleBounds
                initialState eq_refl) as [_ H].
    destruct (H eq_refl) as [_ H'].
    apply (H' editor eq_refl). intros [_ Hbelow].
    vm_compute in Hbelow. by apply Hbelow.
Defined.

(** C1, as stated, fails in both directions. With follow-selection enabled
    and an editor showing the target's document with its cursor elsewhere:
    when the window has focus the message moves no selection and scrolls
    nothing; when the window does not have focus it does both. *)
Lemma focused_window_is_not_revealed :
  let editor := editorAt "/src/app.js" 0 [] in
  getConfiguration (hostShowing true [editor]) FollowSelectionConfigKey = JsBoolean true
  /\ focused (hostShowing true [editor]) = true
  /\ handleMessage sampleCommon (fun _ => hostShowing true [editor]) 1 sampleRoot
       (SELECTED_ELEMENT_CHANGED sampleBounds) initialState = Some (tt, initialState)
  /\ focused (hostShowing false [editor]) = false
  /\ handleMessage sampleCommon (fun _ => hostShowing false [editor]) 1 sampleRoot
       (SELECTED_ELEMENT_CHANGED sampleBounds) initialState
     = Some (tt, record
         [SetSelection editor (newSelection (mkPosition 10 4) (mkPosition 10 4));
          RevealRange editor (mkRange (mkPosition 10 0) (mkPosition 12 8))
            InCenterIfOutsideViewport] initialState).
Proof. intros editor. repeat split. Qed.

Lemma reveal_in_visible_editor_witness :
  let editor :=
    mkTextEditor (mkTextDocument sampleResource false "")
                 (newSelection (mkPosition 3 7) (mkPosition 3 2)) [] in
  let target := mkBoundsInFile "/src/app.js" (mkBounds 3 3 0 9) in
  revealRangeIfPossible sampleCommon (fun _ => hostShowing false [editor]) 1
    sampleRoot target false initialState
  = Some (tt, record
      [RevealRange editor (mkRange (mkPosition 3 0) (mkPosition 3 9))
         InCenterIfOutsideViewport] initialState).
Proof.
  intros editor target.
  destruct (reveal_in_visible_editor sampleCommon (fun _ => hostShowing false [editor])
              0 sampleRoot target false initialState editor eq_refl eq_refl)
    as (moves & scrolls & H1 & _ & _ & _ & _ & H2).
  destruct (H2 eq_refl eq_refl eq_refl eq_refl) as (Hmoves & _ & Hscrolls).
  rewrite H1, Hmoves, Hscrolls; [reflexivity|].
  intros (r & Hr & _). by apply elem_of_nil in Hr.
Defined.

(** C9, as stated, fails. The cursor is on line 3, inside a target that runs
    from line 3 to line 50; lines 0 to 10 are visible. The target is not
    fully visible, and yet nothing is scrolled, because the selection is
    visible and shares a line with the target. *)
Lemma partly_visible_target_is_not_scrolled :
  let editor := editorAt "/src/app.js" 3 [topOfDocument] in
  let target := getVSCodeRangeForScrolling tallBounds in
  existsb (fun r => contains r target) (visibleRanges editor) = false
  /\ rangesIntersectLinesOnly (selectionRange (selection editor)) target = true
  /\ revealRangeIfPossible sampleCommon (fun _ => hostShowing false [editor]) 1
       sampleRoot tallBounds false initialState = Some (tt, initialState).
Proof. intros editor target. repeat split. Qed.

(** ** Further properties of the reconciler *)

Section ReconcilerLifecycle.
Context (cm : Common) (env : nat -> Host).

(** X1. An event for a document outside the project changes nothing and
    calls nothing, whether it is an edit, a save or a close, and even when
    the document's path is one the module tracks. *)
Theorem foreign_documents_are_ignored projectID document why st :
  isUtopiaDocument projectID document = false ->
  onDidChangeTextDocument cm projectID (mkChangeEvent document) st = Some (tt, st)
  /\ onWillSaveTextDocument cm projectID (mkWillSaveEvent document why) st
     = Some (tt, st)
  /\ onDidCloseTextDocument cm projectID document st = Some (tt, st).
Proof.
  intros Hforeign. split; [|split].
  - apply onDidChange_ignored. by left.
  - unfold onWillSaveTextDocument. cbn [savedDocument]. by rewrite Hforeign.
  - unfold onDidCloseTextDocument. by rewrite Hforeign.
Qed.

(** X2. A change that comes from the store never touches the dirty set,
    whatever the store and the host answer; it leaves the marks of all
    other paths as they were, and it asks for nothing but the read and at
    most one replacement of the entire document. *)
Theorem store_changes_never_touch_dirty_flags resource st :
  let filePath := fromUtopiaURI cm resource in
  exists st1,
    updateDirtyContent cm env resource st = Some (tt, st1)
    /\ dirtyFiles st1 = dirtyFiles st
    /\ (forall other, other <> filePath ->
          other ∈ incomingFileChanges st1 <-> other ∈ incomingFileChanges st)
    /\ exists edits,
         calls st1 = (calls st ++ ReadFileAsUTF8 filePath :: edits)%list
         /\ (edits = []
             \/ exists text, edits = [ApplyEdit resource entireDocRange text]).
Proof.
  intros filePath.
  unfold updateDirtyContent, updateDirtyContent_untilRead,
    updateDirtyContent_afterRead, updateDirtyContent_afterApplyEdit.
  run_task. fold filePath.
  destruct (storeRead _ _) as [file|]; run_task.
  2: { eexists; split; [reflexivity|]. cbn. split; [done|]. split; [done|].
       exists []. by split; [|left]. }
  destruct (unsavedContent file) as [unsaved|]; run_task.
  2: { eexists; split; [reflexivity|]. cbn. split; [done|]. split; [done|].
       exists []. by split; [|left]. }
  destruct (applyEditResult _ _); cbn [negb]; run_task.
  - eexists; split; [reflexivity|]. cbn. split; [done|]. split.
    + intros other Hother. rewrite elem_of_union, elem_of_singleton. tauto.
    + exists [ApplyEdit resource entireDocRange unsaved].
      rewrite <- app_assoc. split; [done|]. right. by exists unsaved.
  - eexists; split; [reflexivity|]. cbn. split; [done|]. split.
    + intros other Hother.
      rewrite elem_of_difference, elem_of_union, elem_of_singleton. tauto.
    + exists [ApplyEdit resource entireDocRange unsaved].
      rewrite <- app_assoc. split; [done|]. right. by exists unsaved.
Qed.

Lemma updateDirtyContent_applied resource file unsaved st :
  storeRead (env (now st)) (fromUtopiaURI cm resource) = Some file ->
  unsavedContent file = Some unsaved ->
  applyEditResult (env (S (now st))) resource = true ->
  exists st1,
    updateDirtyContent cm env resource st = Some (tt, st1)
    /\ now st1 = S (S (now st))
    /\ (fromUtopiaURI cm resource ∈ incomingFileChanges st1).
Proof.
  intros Hread Hunsaved Happlied.
  rewrite (updateDirtyContent_unsaved cm env resource file unsaved st Hread Hunsaved).
  cbn zeta. rewrite Happlied. eexists; split; [reflexivity|].
  cbn. split; [done|]. apply elem_of_union_r. by apply elem_of_singleton.
Qed.

(** X3. The mark is used once. With a path marked incoming, of two dirty
    notifications for it the first is swallowed and the second is written
    to the store, with the text of the second. *)
Theorem incoming_mark_is_single_use projectID event1 event2 st :
  let filePath := fromUtopiaURI cm (uri (changedDocument event1)) in
  fromUtopiaURI cm (uri (changedDocument event2)) = filePath ->
  isUtopiaDocument projectID (changedDocument event1) = true ->
  isUtopiaDocument projectID (changedDocument event2) = true ->
  isDirty (changedDocument event1) = true ->
  isDirty (changedDocument event2) = true ->
  filePath ∈ incomingFileChanges st ->
  exists st1 st2,
    onDidChangeTextDocument cm projectID event1 st = Some (tt, st1)
    /\ calls st1 = calls st
    /\ onDidChangeTextDocument cm projectID event2 st1 = Some (tt, st2)
    /\ calls st2
       = (calls st
          ++ [WriteFileUnsavedContentAsUTF8 filePath
                (getText (changedDocument event2))])%list.
Proof.
  intros filePath Hsame Hs1 Hs2 Hd1 Hd2 Hmarked.
  rewrite (onDidChange_dirty cm projectID event1 st Hs1 Hd1). cbn zeta.
  fold filePath. rewrite decide_True by done.
  eexists _, _. split; [reflexivity|]. split; [reflexivity|].
  rewrite (onDidChange_dirty cm projectID event2 _ Hs2 Hd2). cbn zeta.
  rewrite Hsame. rewrite decide_False by apply not_elem_of_removed.
  split; reflexivity.
Qed.

(** X4. The marks are a set, not a count. When two changes from the store
    for one path are both applied before any notification is seen, one
    mark is left: of the two notifications that follow, the second is
    written back to the store. *)
Theorem two_store_changes_leave_one_mark projectID resource file1 file2
    unsaved1 unsaved2 event1 event2 st :
  let filePath := fromUtopiaURI cm resource in
  storeRead (env (now st)) filePath = Some file1 ->
  unsavedContent file1 = Some unsaved1 ->
  applyEditResult (env (S (now st))) resource = true ->
  storeRead (env (S (S (now st)))) filePath = Some file2 ->
  unsavedContent file2 = Some unsaved2 ->
  applyEditResult (env (S (S (S (now st))))) resource = true ->
  fromUtopiaURI cm (uri (changedDocument event1)) = filePath ->
  fromUtopiaURI cm (uri (changedDocument event2)) = filePath ->
  isUtopiaDocument projectID (changedDocument event1) = true ->
  isUtopiaDocument projectID (changedDocument event2) = true ->
  isDirty (changedDocument event1) = true ->
  isDirty (changedDocument event2) = true ->
  exists st1 st2 st3 st4,
    updateDirtyContent cm env resource st = Some (tt, st1)
    /\ updateDirtyContent cm env resource st1 = Some (tt, st2)
    /\ onDidChangeTextDocument cm projectID event1 st2 = Some (tt, st3)
    /\ calls st3 = calls st2
    /\ onDidChangeTextDocument cm projectID event2 st3 = Some (tt, st4)
    /\ calls st4
       = (calls st2
          ++ [WriteFileUnsavedContentAsUTF8 filePath
                (getText (changedDocument event2))])%list.
Proof.
  intros filePath Hr1 Hu1 Ha1 Hr2 Hu2 Ha2 Hp1 Hp2 Hs1 Hs2 Hd1 Hd2.
  destruct (updateDirtyContent_applied resource file1 unsaved1 st Hr1 Hu1 Ha1)
    as (st1 & Hrun1 & Hnow1 & _).
  rewrite <- Hnow1 in Hr2, Ha2.
  destruct (updateDirtyContent_applied resource file2 unsaved2 st1 Hr2 Hu2 Ha2)
    as (st2 & Hrun2 & _ & Hmarked).
  fold filePath in Hmarked.
  exists st1, st2. eexists _, _. split; [exact Hrun1|]. split; [exact Hrun2|].
  rewrite (onDidChange_dirty cm projectID event1 _ Hs1 Hd1). cbn zeta.
  rewrite Hp1. rewrite decide_True by done.
  split; [reflexivity|]. split; [reflexivity|].
  rewrite (onDidChange_dirty cm projectID event2 _ Hs2 Hd2). cbn zeta.
  rewrite Hp2. rewrite decide_False by apply not_elem_of_removed.
  split; reflexivity.
Qed.

(** X5. An edit that is closed without a save is discarded once: the
    dirty notification records the path and writes the text, the close
    clears the store's unsaved content for the path, and a second close
    does nothing more. *)
Theorem edit_then_close_discards_once projectID document st :
  let filePath := fromUtopiaURI cm (uri document) in
  isUtopiaDocument projectID document = true ->
  isDirty document = true ->
  filePath ∉ incomingFileChanges st ->
  exists st1 st2,
    onDidChangeTextDocument cm projectID (mkChangeEvent document) st = Some (tt, st1)
    /\ onDidCloseTextDocument cm projectID document st1 = Some (tt, st2)
    /\ calls st2
       = (calls st
          ++ [WriteFileUnsavedContentAsUTF8 filePath (getText document);
              ClearFileUnsavedContent filePath])%list
    /\ (filePath ∉ dirtyFiles st2)
    /\ onDidCloseTextDocument cm projectID document st2 = Some (tt, st2).
Proof.
  intros filePath Hscheme Hdirty Hunmarked.
  rewrite (onDidChange_dirty cm projectID (mkChangeEvent document) st Hscheme Hdirty).
  cbn zeta. cbn [changedDocument]. fold filePath.
  rewrite decide_False by done.
  eexists _, _. split; [reflexivity|].
  unfold onDidCloseTextDocument. rewrite Hscheme. fold filePath. run_task.
  cbn [dirtyFiles record setDirtyFiles].
  rewrite decide_True by (apply elem_of_union_r; by apply elem_of_singleton).
  split; [reflexivity|]. cbn [calls dirtyFiles record setDirtyFiles].
  split; [by rewrite <- app_assoc|]. split; [apply not_elem_of_removed|].
  by rewrite decide_False by apply not_elem_of_removed.
Qed.

(** X6. Right after the will-save event of a document of the project,
    whatever the reason of the save, the path is not dirty: a close
    handled next, with no notification in between, changes nothing and
    clears nothing. A dirty notification for the document handled in
    between, such as the one the formatting edit of a manual save gives
    rise to, makes the path dirty again, and the close then clears the
    store's unsaved content for it. *)
Theorem close_after_save_clears_only_if_edited_again projectID document why st :
  let filePath := fromUtopiaURI cm (uri document) in
  isUtopiaDocument projectID document = true ->
  exists st1,
    onWillSaveTextDocument cm projectID (mkWillSaveEvent document why) st
    = Some (tt, st1)
    /\ (filePath ∉ dirtyFiles st1)
    /\ onDidCloseTextDocument cm projectID document st1 = Some (tt, st1)
    /\ (forall p, ClearFileUnsavedContent p ∈ calls st1 ->
                  ClearFileUnsavedContent p ∈ calls st)
    /\ forall edited,
         uri edited = uri document ->
         isDirty edited = true ->
         exists st2 st3,
           onDidChangeTextDocument cm projectID (mkChangeEvent edited) st1
           = Some (tt, st2)
           /\ (filePath ∈ dirtyFiles st2)
           /\ onDidCloseTextDocument cm projectID edited st2 = Some (tt, st3)
           /\ calls st3 = (calls st2 ++ [ClearFileUnsavedContent filePath])%list.
Proof.
  intros filePath Hscheme.
  assert (Hclose : forall st',
            filePath ∉ dirtyFiles st' ->
            onDidCloseTextDocument cm projectID document st' = Some (tt, st')).
  { intros st' Hclean. unfold onDidCloseTextDocument. rewrite Hscheme.
    fold filePath. run_task. by rewrite decide_False. }
  assert (Hagain : forall st1 edited,
            uri edited = uri document ->
            isDirty edited = true ->
            exists st2 st3,
              onDidChangeTextDocument cm projectID (mkChangeEvent edited) st1
              = Some (tt, st2)
              /\ (filePath ∈ dirtyFiles st2)
              /\ onDidCloseTextDocument cm projectID edited st2 = Some (tt, st3)
              /\ calls st3 = (calls st2 ++ [ClearFileUnsavedContent filePath])%list).
  { intros st1 edited Huri Hdirty.
    assert (Hscheme' : isUtopiaDocument projectID edited = true)
      by (unfold isUtopiaDocument in *; by rewrite Huri).
    rewrite (onDidChange_dirty cm projectID (mkChangeEvent edited) st1 Hscheme' Hdirty).
    cbn zeta. cbn [changedDocument]. rewrite Huri. fold filePath.
    eexists _, _. split; [reflexivity|].
    assert (Hin : filePath ∈ dirtyFiles st1 ∪ {[filePath]})
      by apply elem_of_union_r, elem_of_singleton_2, eq_refl.
    split; [by destruct (decide _)|].
    unfold onDidCloseTextDocument. rewrite Hscheme', Huri. fold filePath. run_task.
    rewrite decide_True by (by destruct (decide _)).
    split; reflexivity. }
  unfold onWillSaveTextDocument. cbn [savedDocument reason]. rewrite Hscheme.
  fold filePath. run_task. destruct why; run_task.
  - eexists; split; [reflexivity|]. split; [cbn; apply not_elem_of_removed|]. split.
    + apply Hclose. cbn. apply not_elem_of_removed.
    + split; [|apply Hagain].
      intros p. cbn. rewrite elem_of_app, list_elem_of_singleton.
      by intros [?|?].
  - eexists; split; [reflexivity|]. split; [cbn; apply not_elem_of_removed|].
    split; [apply Hclose; cbn; apply not_elem_of_removed|].
    split; [done|apply Hagain].
  - eexists; split; [reflexivity|]. split; [cbn; apply not_elem_of_removed|].
    split; [apply Hclose; cbn; apply not_elem_of_removed|].
    split; [done|apply Hagain].
Qed.

End ReconcilerLifecycle.

(** ** Further properties of opening a file *)

Section OpenFileOutcomes.
Context (cm : Common) (env : nat -> Host).

(** X7. The file is missing at the first [k] checks and there at the next,
    with at least [k] retries allowed: [openFile] checks [k + 1] times,
    waits [k] times, gives the open command once, last, and returns
    [true]. *)
Theorem openFile_opens_once_the_file_exists fileUri k : forall retries st,
  let filePath := fromUtopiaURI cm fileUri in
  Z.of_nat k <= retries ->
  (forall j, (j < k)%nat -> storeExists (env (now st + 2 * j)) filePath = false) ->
  storeExists (env (now st + 2 * k)) filePath = true ->
  openFile cm env fileUri retries st
  = Some (true,
          elapse (2 * k + 2)
            (attemptsLog filePath k ++ [ExecuteCommand "vscode.open" fileUri]) st).
Proof.
  induction k as [|k IH]; intros retries st filePath Hretries Hmissing Hthere.
  - rewrite openFile_equation_1. run_task. cbv beta zeta. fold filePath.
    replace (now st + 2 * 0)%nat with (now st) in Hthere by lia.
    rewrite Hthere. run_task. by rewrite !tick_record, elapse_elapse.
  - rewrite openFile_equation_1. run_task. cbv beta zeta. fold filePath.
    assert (H0 : storeExists (env (now st)) filePath = false).
    { replace (now st) with (now st + 2 * 0)%nat by lia. apply Hmissing. lia. }
    rewrite H0. destruct (Z_gt_dec _ _) as [_|Hle]; [|lia]. run_task.
    rewrite !tick_record, elapse_elapse.
    rewrite (IH (retries - 1) (elapse (1 + 1) ([Exists filePath] ++ [SetTimeout 100]) st)).
    + fold filePath. rewrite elapse_elapse. do 2 f_equal. f_equal. lia.
    + lia.
    + intros j Hj. cbn [now elapse].
      replace (now st + (1 + 1) + 2 * j)%nat with (now st + 2 * S j)%nat by lia.
      apply Hmissing. lia.
    + cbn [now elapse].
      by replace (now st + (1 + 1) + 2 * k)%nat with (now st + 2 * S k)%nat by lia.
Qed.

(** X8. For any retry count, negative ones included, and a file that never
    exists, [openFile] returns [false] after one check and as many waits
    and further checks as the count allows: none when the count is zero
    or less. *)
Theorem openFile_waits_as_often_as_retries_allow fileUri (retries : Z) st :
  let filePath := fromUtopiaURI cm fileUri in
  (forall t, storeExists (env t) filePath = false) ->
  openFile cm env fileUri retries st
  = Some (false,
          elapse (2 * Z.to_nat retries + 1)
            (attemptsLog filePath (Z.to_nat retries)) st).
Proof.
  intros filePath Hnever. destruct (Z.le_gt_cases 0 retries) as [Hpos|Hneg].
  - rewrite <- (Z2Nat.id retries Hpos) at 1. by apply openFile_never_exists.
  - rewrite openFile_equation_1. run_task. cbv beta zeta. fold filePath.
    rewrite Hnever. destruct (Z_gt_dec _ _) as [Hgt|_]; [lia|]. run_task.
    rewrite tick_record. replace (Z.to_nat retries) with 0%nat by lia.
    reflexivity.
Qed.

(** X9. Whatever the store answers, [openFile] returns; it leaves the
    module's own variables alone, its calls are existence checks, delays
    and the open command only, and it returns [true] exactly when it gave
    the open command. *)
Theorem openFile_always_returns fileUri (retries : Z) st :
  let filePath := fromUtopiaURI cm fileUri in
  exists opened n cs,
    openFile cm env fileUri retries st = Some (opened, elapse n cs st)
    /\ (opened = true <-> ExecuteCommand "vscode.open" fileUri ∈ cs)
    /\ forall c, c ∈ cs ->
         c = Exists filePath \/ c = SetTimeout 100
         \/ c = ExecuteCommand "vscode.open" fileUri.
Proof.
  intros filePath. remember (Z.to_nat retries) as fuel eqn:Hfuel.
  revert retries st Hfuel.
  induction fuel as [|fuel IH]; intros retries st Hfuel;
    rewrite openFile_equation_1; run_task; cbv beta zeta; fold filePath;
    destruct (storeExists _ _).
  1,3: run_task; rewrite !tick_record, elapse_elapse; eexists _, _, _;
       (split; [reflexivity|]); split;
       [ split; [intros _; apply elem_of_app; right; by apply list_elem_of_singleton | done]
       | intros c [->%list_elem_of_singleton | ->%list_elem_of_singleton]%elem_of_app;
         auto ].
  - destruct (Z_gt_dec _ _) as [Hgt|_]; [lia|]. run_task.
    rewrite tick_record. eexists _, _, _. split; [reflexivity|]. split.
    + split; [done|]. intros H%list_elem_of_singleton. discriminate.
    + intros c ->%list_elem_of_singleton. auto.
  - destruct (Z_gt_dec _ _) as [Hgt|Hle]; run_task.
    + rewrite !tick_record, elapse_elapse.
      destruct (IH (retries - 1) (elapse (1 + 1) ([Exists filePath] ++ [SetTimeout 100]) st))
        as (opened & n & cs & Hrun & Hopened & Hcalls); [lia|].
      rewrite Hrun, elapse_elapse. eexists _, _, _. split; [reflexivity|]. split.
      * rewrite Hopened, elem_of_app. split; [auto|].
        intros [H|H]; [|done].
        apply elem_of_app in H as [H%list_elem_of_singleton|H%list_elem_of_singleton];
          discriminate.
      * intros c [H|H]%elem_of_app; [|by apply Hcalls].
        apply elem_of_app in H as [->%list_elem_of_singleton| ->%list_elem_of_singleton];
          auto.
    + rewrite tick_record. eexists _, _, _. split; [reflexivity|]. split.
      * split; [done|]. intros H%list_elem_of_singleton. discriminate.
      * intros c ->%list_elem_of_singleton. auto.
Qed.

End OpenFileOutcomes.

(** ** Further properties of the messages and the listeners *)

Section Messaging.
Context (cm : Common) (env : nat -> Host).

(** X10. Follow-selection counts as enabled only when the setting is the
    boolean [true]. With any other value (unset, [false], a number, a
    string) a selected-element message does nothing at all, whatever the
    focus, the editors and the store are. *)
Theorem disabled_follow_selection_ignores_selection fuel root b st :
  getConfiguration (env (now st)) FollowSelectionConfigKey <> JsBoolean true ->
  handleMessage cm env fuel root (SELECTED_ELEMENT_CHANGED b) st = Some (tt, st).
Proof.
  intros Hoff. unfold handleMessage, getFollowSelectionEnabledConfig. run_task.
  destruct (getConfiguration _ _) as [|[|]| |]; try done.
Qed.

(** X11. The configuration sent to Utopia, on request or after a change of
    the watched setting, is one message; its flag is [true] exactly when
    the setting is the boolean [true]. A configuration change that does
    not affect the watched setting sends nothing. *)
Theorem config_snapshot_reports_boolean_true fuel root affects st :
  exists enabled,
    (enabled = true
     <-> getConfiguration (env (now st)) FollowSelectionConfigKey = JsBoolean true)
    /\ handleMessage cm env fuel root GET_UTOPIA_VSCODE_CONFIG st
       = Some (tt, record [SendMessage (utopiaVSCodeConfigValues (mkConfig enabled))] st)
    /\ (affects FollowSelectionConfigKey = true ->
        onDidChangeConfiguration env affects st
        = Some (tt, record [SendMessage (utopiaVSCodeConfigValues (mkConfig enabled))] st))
    /\ (affects FollowSelectionConfigKey = false ->
        onDidChangeConfiguration env affects st = Some (tt, st)).
Proof.
  exists (match getConfiguration (env (now st)) FollowSelectionConfigKey with
          | JsBoolean b => b
          | _ => false
          end).
  split; [destruct (getConfiguration _ _) as [|[|]| |]; split; congruence|].
  unfold onDidChangeConfiguration, handleMessage, sendFullConfigToUtopia,
    getFullConfig, getFollowSelectionEnabledConfig.
  split; [reflexivity|]. split; intros ->; reflexivity.
Qed.

(** X12. A change of selection made by the keyboard or the mouse is
    reported with one message that carries the path of the editor's
    document and the active end of the selection, the cursor, also when
    the selection was made backwards. A change without a kind, or made by
    a command (as the module's own reveal is), is not reported. *)
Theorem selection_changes_are_reported_unless_commanded event st :
  let editor := textEditor event in
  let cursor := active (selection editor) in
  (kind event = Some Keyboard \/ kind event = Some Mouse ->
   onDidChangeTextEditorSelection event st
   = Some (tt, record
       [SendMessage (editorCursorPositionChanged (path (uri (document editor)))
                       (line cursor) (character cursor))] st))
  /\ (kind event = None \/ kind event = Some Command ->
      onDidChangeTextEditorSelection event st = Some (tt, st)).
Proof.
  intros editor cursor. unfold onDidChangeTextEditorSelection.
  split; intros [-> | ->]; reflexivity.
Qed.

(** X13. The decorations of the last update message are the ones applied
    again when the visible editors change: the message stores its list
    and applies it, and the listener applies the stored list to the
    editors visible at that later moment. *)
Theorem last_decorations_are_reapplied fuel root decorations st :
  exists st1,
    handleMessage cm env fuel root (UPDATE_DECORATIONS decorations) st = Some (tt, st1)
    /\ currentDecorations st1 = decorations
    /\ calls st1
       = calls (record
           (flat_map (fun visibleEditor =>
              let filename := path (uri (document visibleEditor)) in
              [SetDecorations visibleEditor highlightDecorationType
                 (map (fun r : DecorationRange => getVSCodeRange r)
                    (filter (fun r : DecorationRange =>
                               filePath r = filename /\ rangeType r = highlight)
                            decorations));
               SetDecorations visibleEditor selectionDecorationType
                 (map (fun r : DecorationRange => getVSCodeRange r)
                    (filter (fun r : DecorationRange =>
                               filePath r = filename /\ rangeType r = selection_)
                            decorations))])
              (visibleTextEditors (env (now st)))) st)
    /\ forall st2,
         currentDecorations st2 = currentDecorations st1 ->
         onDidChangeVisibleTextEditors env st2 = updateDecorations env decorations st2.
Proof.
  unfold handleMessage. run_task.
  cbn [currentDecorations setCurrentDecorations].
  rewrite updateDecorations_calls. eexists; split; [reflexivity|].
  cbn. split; [done|]. split; [done|].
  intros st2 ->. unfold onDidChangeVisibleTextEditors. run_task. reflexivity.
Qed.

End Messaging.

(** ** Further properties of the decoration mirror *)

Lemma addDecoration_noEmptyEntries result range :
  noEmptyEntries result -> noEmptyEntries (addDecoration result range).
Proof.
  intros Hinv filename forFilename. unfold addDecoration.
  destruct (decide (filePath range = filename)) as [<-|Hother].
  - rewrite lookup_insert_eq. intros [= <-]. split; [apply insert_non_empty|].
    intros key forType.
    destruct (decide (rangeTypeKey (rangeType range) = key)) as [<-|Hkey].
    + rewrite lookup_insert_eq. intros [= <-]. by intros [_ ?]%app_eq_nil.
    + rewrite lookup_insert_ne by done.
      destruct (result !! filePath range) as [old|] eqn:Hold.
      * by apply (Hinv _ _ Hold).
      * by rewrite lookup_empty.
  - rewrite lookup_insert_ne by done. apply Hinv.
Qed.

Lemma foldl_addDecoration_noEmptyEntries decorations : forall result,
  noEmptyEntries result -> noEmptyEntries (foldl addDecoration result decorations).
Proof.
  induction decorations as [|range rest IH]; intros result Hinv; [done|].
  cbn [foldl]. by apply IH, addDecoration_noEmptyEntries.
Qed.

Lemma getDecorations_noEmptyEntries decorations :
  noEmptyEntries (getDecorationsByFilenameAndType decorations).
Proof.
  apply foldl_addDecoration_noEmptyEntries. intros filename forFilename.
  by rewrite lookup_empty.
Qed.

(** X14. The keys of the grouping are exactly those that occur. A file
    name is a key exactly when some input range has it as its path; under
    a file name, a range type is a key exactly when some input range has
    that path and that type, and what it holds is those ranges in the
    order of the input. No empty list and no empty object is ever
    stored. *)
Theorem grouping_keys_are_exactly_those_present decorations filename key :
  let result := getDecorationsByFilenameAndType decorations in
  let selected :=
    filter (fun r : DecorationRange =>
              filePath r = filename /\ rangeTypeKey (rangeType r) = key)
           decorations in
  (is_Some (result !! filename)
   <-> exists r : DecorationRange, r ∈ decorations /\ filePath r = filename)
  /\ forall forFilename : gmap string (list DecorationRange),
       result !! filename = Some forFilename ->
       forFilename <> ∅
       /\ forFilename !! key = (if decide (selected = []) then None else Some selected).
Proof.
  intros result selected.
  pose proof (getDecorations_noEmptyEntries decorations) as Hinv. fold result in Hinv.
  assert (Hgrouped : forall k,
            grouped result filename k
            = filter (fun r : DecorationRange =>
                        filePath r = filename /\ rangeTypeKey (rangeType r) = k)
                     decorations)
    by (intros k; apply grouped_getDecorations).
  split.
  - split.
    + intros [forFilename Hfile]. destruct (Hinv _ _ Hfile) as [Hnonempty Hlists].
      destruct (map_choose _ Hnonempty) as (k & forType & Hk).
      specialize (Hgrouped k). unfold grouped in Hgrouped.
      rewrite Hfile in Hgrouped. cbn [from_option id] in Hgrouped.
      rewrite Hk in Hgrouped. cbn [from_option id] in Hgrouped.
      destruct forType as [|r rest]; [by destruct (Hlists _ _ Hk)|].
      assert (Hr : r ∈ r :: rest) by apply list_elem_of_here.
      rewrite Hgrouped in Hr. apply list_elem_of_filter in Hr as [[Hpath _] Hin].
      by exists r.
    + intros (r & Hin & Hpath).
      destruct (result !! filename) as [forFilename|] eqn:Hfile; [by eexists|].
      specialize (Hgrouped (rangeTypeKey (rangeType r))). unfold grouped in Hgrouped.
      rewrite Hfile in Hgrouped. cbn [from_option id] in Hgrouped.
      rewrite lookup_empty in Hgrouped. cbn [from_option id] in Hgrouped.
      assert (Hr : r ∈ filter (fun r0 : DecorationRange =>
                     filePath r0 = filename
                     /\ rangeTypeKey (rangeType r0) = rangeTypeKey (rangeType r))
                     decorations)
        by (apply list_elem_of_filter; auto).
      rewrite <- Hgrouped in Hr. by apply elem_of_nil in Hr.
  - intros forFilename Hfile. destruct (Hinv _ _ Hfile) as [Hnonempty Hlists].
    split; [done|].
    specialize (Hgrouped key). unfold grouped in Hgrouped.
    rewrite Hfile in Hgrouped. cbn [from_option id] in Hgrouped.
    fold selected in Hgrouped.
    destruct (forFilename !! key) as [forType|] eqn:Hk; cbn [from_option id] in Hgrouped.
    + subst forType. rewrite decide_False; [done|]. by apply (Hlists _ _ Hk).
    + by rewrite decide_True.
Qed.

(** ** Further properties of ranges *)

Lemma containsPosition_lines r p :
  containsPosition r p = true -> line (start r) <= line p <= line (end_ r).
Proof.
  unfold containsPosition, isBefore. intros H.
  repeat match type of H with
         | context [?a <? ?b] => destruct (Z.ltb_spec a b)
         end; try done; lia.
Qed.

Section Ranges.

(** X15. The line-only test never misses a real intersection: two ranges
    that contain a common position are reported as intersecting. The test
    is symmetric, and it does not depend on any column. *)
Theorem line_overlap_never_misses_an_intersection first second p :
  (containsPosition first p = true -> containsPosition second p = true ->
   rangesIntersectLinesOnly first second = true)
  /\ rangesIntersectLinesOnly first second = rangesIntersectLinesOnly second first
  /\ forall c1 c2 c3 c4,
       rangesIntersectLinesOnly
         (mkRange (mkPosition (line (start first)) c1)
                  (mkPosition (line (end_ first)) c2))
         (mkRange (mkPosition (line (start second)) c3)
                  (mkPosition (line (end_ second)) c4))
       = rangesIntersectLinesOnly first second.
Proof.
  split; [|split].
  - intros H1%containsPosition_lines H2%containsPosition_lines.
    apply rangesIntersectLinesOnly_spec. lia.
  - unfold rangesIntersectLinesOnly. apply andb_comm.
  - reflexivity.
Qed.

(** X16. For bounds given in order (the start line not after the end
    line, on a single line the start column not after the end column, and
    no negative start column), the range built for the selection is the
    bounds themselves, the range built for scrolling runs from the start
    of the first line to the end of the bounds, and the scrolling range
    contains the selection range: scrolling it into view shows all of the
    target. *)
Theorem scrolling_range_covers_the_target (b : Bounds) :
  0 <= startCol b ->
  startLine b <= endLine b ->
  (startLine b = endLine b -> startCol b <= endCol b) ->
  getVSCodeRange b
  = mkRange (mkPosition (startLine b) (startCol b)) (mkPosition (endLine b) (endCol b))
  /\ getVSCodeRangeForScrolling b
     = mkRange (mkPosition (startLine b) 0) (mkPosition (endLine b) (endCol b))
  /\ contains (getVSCodeRangeForScrolling b) (getVSCodeRange b) = true.
Proof.
  intros Hcol Hlines Hcols.
  assert (H1 : getVSCodeRange b
               = mkRange (mkPosition (startLine b) (startCol b))
                         (mkPosition (endLine b) (endCol b))).
  { unfold getVSCodeRange, newRange, isBefore. cbn [line character].
    destruct (Z.ltb_spec (startLine b) (endLine b)); [done|].
    destruct (Z.ltb_spec (endLine b) (startLine b)); [lia|].
    destruct (Z.ltb_spec (startCol b) (endCol b)); [done|].
    f_equal; f_equal; lia. }
  assert (H2 : getVSCodeRangeForScrolling b
               = mkRange (mkPosition (startLine b) 0)
                         (mkPosition (endLine b) (endCol b))).
  { unfold getVSCodeRangeForScrolling, newRange, isBefore. cbn [line character].
    destruct (Z.ltb_spec (startLine b) (endLine b)); [done|].
    destruct (Z.ltb_spec (endLine b) (startLine b)); [lia|].
    destruct (Z.ltb_spec 0 (endCol b)); [done|].
    f_equal; f_equal; lia. }
  split; [exact H1|]. split; [exact H2|].
  rewrite H1, H2. unfold contains, containsPosition, isBefore.
  cbn [start end_ line character].
  repeat match goal with
         | |- context [?a <? ?b] => destruct (Z.ltb_spec a b)
         end; try done; lia.
Qed.

End Ranges.

(** ** Further properties of revealing a range *)

Section RevealThroughOpen.
Context (cm : Common) (env : nat -> Host).

Lemma openFile_exists_now fileUri retries st :
  storeExists (env (now st)) (fromUtopiaURI cm fileUri) = true ->
  openFile cm env fileUri retries st
  = Some (true,
          elapse 2 [Exists (fromUtopiaURI cm fileUri);
                    ExecuteCommand "vscode.open" fileUri] st).
Proof.
  intros Hthere. rewrite openFile_equation_1. run_task. cbv beta zeta.
  rewrite Hthere. run_task. by rewrite !tick_record, elapse_elapse.
Qed.

Lemma reveal_not_visible fuel root (b : BoundsInFile) force st :
  force || negb (focused (env (now st))) = true ->
  List.find (fun editor => String.eqb (path (uri (document editor))) (filePath b))
    (visibleTextEditors (env (now st))) = None ->
  revealRangeIfPossible cm env (S fuel) root b force st
  = match openFile cm env (joinPath cm root (filePath b)) defaultRetries st with
    | Some (true, st1) => revealRangeIfPossible cm env fuel root b true st1
    | Some (false, st1) => Some (tt, st1)
    | None => None
    end.
Proof.
  intros Hgate Hfind. cbn [revealRangeIfPossible]. run_task.
  rewrite Hgate, Hfind.
  destruct (openFile _ _ _ _ _) as [[[|] st1]|]; reflexivity.
Qed.

(** X17. The reveal is not held back at its start (the force flag is
    set, or the window has no focus), no editor shows the target's
    document, its file exists, and an editor shows it once the open
    command has been given. The reveal then checks the file, opens it and
    reveals in that editor with the force flag set, so whether the window
    has focus by then does not matter: the selection is moved to the start
    of the target unless its lines overlap the target's, and the target is
    scrolled into view unless the lines overlap and the selection lies
    within a visible range. *)
Theorem reveal_opens_the_file_and_forces_the_reveal
    fuel root (b : BoundsInFile) force st visibleEditor :
  let fileUri := joinPath cm root (filePath b) in
  let filePath' := fromUtopiaURI cm fileUri in
  let shows := fun editor => String.eqb (path (uri (document editor))) (filePath b) in
  let current := selectionRange (selection visibleEditor) in
  let target := getVSCodeRangeForScrolling b in
  let linesOverlap :=
    line (start current) <= line (end_ target)
    /\ line (start target) <= line (end_ current) in
  let selectionVisible :=
    exists r, r ∈ visibleRanges visibleEditor /\ contains r current = true in
  force || negb (focused (env (now st))) = true ->
  List.find shows (visibleTextEditors (env (now st))) = None ->
  storeExists (env (now st)) filePath' = true ->
  List.find shows (visibleTextEditors (env (now st + 2))) = Some visibleEditor ->
  exists moves scrolls,
    revealRangeIfPossible cm env (S (S fuel)) root b force st
    = Some (tt,
        elapse 2
          ([Exists filePath'; ExecuteCommand "vscode.open" fileUri]
           ++ moves ++ scrolls)%list st)
    /\ (linesOverlap -> moves = [])
    /\ (~ linesOverlap ->
        moves = [SetSelection visibleEditor
                   (newSelection (start (getVSCodeRange b)) (start (getVSCodeRange b)))])
    /\ (linesOverlap /\ selectionVisible -> scrolls = [])
    /\ (~ (linesOverlap /\ selectionVisible) ->
        scrolls = [RevealRange visibleEditor target InCenterIfOutsideViewport]).
Proof.
  intros fileUri filePath' shows current target linesOverlap selectionVisible
    Hgate Hhidden Hthere Hshown.
  rewrite (reveal_not_visible (S fuel) root b force st Hgate Hhidden).
  fold fileUri.
  rewrite (openFile_exists_now fileUri defaultRetries st Hthere). fold filePath'.
  rewrite (reveal_visible cm env fuel root b true _ visibleEditor);
    [|reflexivity|exact Hshown].
  cbv zeta. fold current target.
  set (alreadySelected := rangesIntersectLinesOnly current target).
  set (alreadyVisible :=
         existsb (fun r => contains r current) (visibleRanges visibleEditor)).
  assert (Hsel : alreadySelected = true <-> linesOverlap)
    by apply rangesIntersectLinesOnly_spec.
  assert (Hvis : alreadyVisible = true <-> selectionVisible)
    by apply existsb_elem_of.
  eexists _, _. split.
  { unfold record, elapse. cbn [dirtyFiles incomingFileChanges currentDecorations
      documents now calls]. by rewrite <- app_assoc. }
  split; [by intros ->%Hsel|].
  split.
  { intros Hno. replace alreadySelected with false; [done|].
    symmetry. apply not_true_is_false. by rewrite Hsel. }
  split.
  { intros [H1 H2]. apply Hsel in H1. apply Hvis in H2. by rewrite H1, H2. }
  intros Hno. replace (alreadySelected && alreadyVisible) with false; [done|].
  symmetry. apply not_true_is_false. by rewrite andb_true_iff, Hsel, Hvis.
Qed.

(** X18. The reveal is not held back at its start (the force flag is
    set, or the window has no focus), no editor shows the target's
    document and its file never exists: the reveal ends after the six
    checks and five waits of [openFile], without an open command, a move
    of the selection or a scroll. *)
Theorem reveal_gives_up_when_the_file_is_missing fuel root (b : BoundsInFile) force st :
  let filePath' := fromUtopiaURI cm (joinPath cm root (filePath b)) in
  force || negb (focused (env (now st))) = true ->
  List.find (fun editor => String.eqb (path (uri (document editor))) (filePath b))
    (visibleTextEditors (env (now st))) = None ->
  (forall t, storeExists (env t) filePath' = false) ->
  revealRangeIfPossible cm env (S fuel) root b force st
  = Some (tt, elapse 11 (attemptsLog filePath' 5) st).
Proof.
  intros filePath' Hgate Hhidden Hnever.
  rewrite (reveal_not_visible fuel root b force st Hgate Hhidden).
  change defaultRetries with (Z.of_nat 5).
  by rewrite (openFile_never_exists cm env _ 5 st Hnever).
Qed.

End RevealThroughOpen.

(** ** The further properties at sample inputs *)

Lemma foreign_documents_are_ignored_witness :
  isUtopiaDocument sampleProject foreignDocument = false
  /\ fromUtopiaURI sampleCommon (uri foreignDocument) = "/src/app.js"
  /\ onDidChangeTextDocument sampleCommon sampleProject
       (mkChangeEvent foreignDocument) dirtyState = Some (tt, dirtyState)
  /\ onWillSaveTextDocument sampleCommon sampleProject
       (mkWillSaveEvent foreignDocument Manual) dirtyState = Some (tt, dirtyState)
  /\ onDidCloseTextDocument sampleCommon sampleProject foreignDocument dirtyState
     = Some (tt, dirtyState).
Proof.
  split; [reflexivity|]. split; [reflexivity|].
  exact (foreign_documents_are_ignored sampleCommon sampleProject foreignDocument
           Manual dirtyState eq_refl).
Defined.

Lemma incoming_mark_is_single_use_witness :
  exists st1 st2,
    onDidChangeTextDocument sampleCommon sampleProject
      (mkChangeEvent (sampleDocument true)) markedState = Some (tt, st1)
    /\ calls st1 = []
    /\ onDidChangeTextDocument sampleCommon sampleProject
         (mkChangeEvent (sampleDocument true)) st1 = Some (tt, st2)
    /\ calls st2 = [WriteFileUnsavedContentAsUTF8 "/src/app.js" "typed"].
Proof.
  exact (incoming_mark_is_single_use sampleCommon sampleProject
           (mkChangeEvent (sampleDocument true)) (mkChangeEvent (sampleDocument true))
           markedState eq_refl eq_refl eq_refl eq_refl eq_refl
           (proj2 (elem_of_singleton (C:=gset string) "/src/app.js" "/src/app.js")
                  eq_refl)).
Defined.

Lemma two_store_changes_leave_one_mark_witness :
  exists st1 st2 st3 st4,
    updateDirtyContent sampleCommon (fun _ => hostWithUnsaved true) sampleResource
      initialState = Some (tt, st1)
    /\ updateDirtyContent sampleCommon (fun _ => hostWithUnsaved true) sampleResource
         st1 = Some (tt, st2)
    /\ onDidChangeTextDocument sampleCommon sampleProject
         (mkChangeEvent (sampleDocument true)) st2 = Some (tt, st3)
    /\ calls st3 = calls st2
    /\ onDidChangeTextDocument sampleCommon sampleProject
         (mkChangeEvent (sampleDocument true)) st3 = Some (tt, st4)
    /\ calls st4
       = (calls st2 ++ [WriteFileUnsavedContentAsUTF8 "/src/app.js" "typed"])%list.
Proof.
  exact (two_store_changes_leave_one_mark sampleCommon (fun _ => hostWithUnsaved true)
           sampleProject sampleResource
           (mkStoredFile "saved" (Some "edited")) (mkStoredFile "saved" (Some "edited"))
           "edited" "edited"
           (mkChangeEvent (sampleDocument true)) (mkChangeEvent (sampleDocument true))
           initialState
           eq_refl eq_refl eq_refl eq_refl eq_refl eq_refl
           eq_refl eq_refl eq_refl eq_refl eq_refl eq_refl).
Defined.

Lemma edit_then_close_discards_once_witness :
  exists st1 st2,
    onDidChangeTextDocument sampleCommon sampleProject
      (mkChangeEvent (sampleDocument true)) initialState = Some (tt, st1)
    /\ onDidCloseTextDocument sampleCommon sampleProject (sampleDocument true) st1
       = Some (tt, st2)
    /\ calls st2
       = [WriteFileUnsavedContentAsUTF8 "/src/app.js" "typed";
          ClearFileUnsavedContent "/src/app.js"]
    /\ ("/src/app.js" ∉ dirtyFiles st2)
    /\ onDidCloseTextDocument sampleCommon sampleProject (sampleDocument true) st2
       = Some (tt, st2).
Proof.
  exact (edit_then_close_discards_once sampleCommon sampleProject (sampleDocument true)
           initialState eq_refl eq_refl
           (not_elem_of_empty (C:=gset string) "/src/app.js")).
Defined.

Lemma close_after_save_clears_only_if_edited_again_witness :
  exists st1 st2 st3,
    onWillSaveTextDocument sampleCommon sampleProject
      (mkWillSaveEvent (sampleDocument true) Manual) dirtyState = Some (tt, st1)
    /\ onDidCloseTextDocument sampleCommon sampleProject (sampleDocument true) st1
       = Some (tt, st1)
    /\ onDidChangeTextDocument sampleCommon sampleProject
         (mkChangeEvent echoedDocument) st1 = Some (tt, st2)
    /\ onDidCloseTextDocument sampleCommon sampleProject echoedDocument st2
       = Some (tt, st3)
    /\ calls st3 = (calls st2 ++ [ClearFileUnsavedContent "/src/app.js"])%list.
Proof.
  destruct (close_after_save_clears_only_if_edited_again sampleCommon sampleProject
              (sampleDocument true) Manual dirtyState eq_refl)
    as (st1 & H1 & _ & H2 & _ & H3).
  destruct (H3 echoedDocument eq_refl eq_refl) as (st2 & st3 & H4 & _ & H5 & H6).
  exists st1, st2, st3. repeat split; assumption.
Defined.

Lemma openFile_opens_once_the_file_exists_witness :
  storeExists (hostCreatingFile 0) "/src/app.js" = false
  /\ storeExists (hostCreatingFile 2) "/src/app.js" = false
  /\ storeExists (hostCreatingFile 4) "/src/app.js" = true
  /\ openFile sampleCommon hostCreatingFile sampleResource defaultRetries initialState
     = Some (true,
             elapse 6
               [Exists "/src/app.js"; SetTimeout 100;
                Exists "/src/app.js"; SetTimeout 100;
                Exists "/src/app.js";
                ExecuteCommand "vscode.open" sampleResource] initialState).
Proof.
  split; [reflexivity|]. split; [reflexivity|]. split; [reflexivity|].
  apply (openFile_opens_once_the_file_exists sampleCommon hostCreatingFile
           sampleResource 2 defaultRetries initialState).
  - vm_compute. discriminate.
  - intros j Hj. destruct j as [|[|j]]; [reflexivity|reflexivity|lia].
  - reflexivity.
Defined.

Lemma openFile_waits_as_often_as_retries_allow_witness :
  openFile sampleCommon (fun _ => hostWithoutUnsaved) sampleResource (-3) initialState
  = Some (false, elapse 1 [Exists "/src/app.js"] initialState).
Proof.
  exact (openFile_waits_as_often_as_retries_allow sampleCommon
           (fun _ => hostWithoutUnsaved) sampleResource (-3) initialState
           (fun _ => eq_refl)).
Defined.

Lemma disabled_follow_selection_ignores_selection_witness :
  getConfiguration (hostWithUnsaved true) FollowSelectionConfigKey = JsUndefined
  /\ handleMessage sampleCommon (fun _ => hostWithUnsaved true) 0 sampleRoot
       (SELECTED_ELEMENT_CHANGED sampleBounds) initialState = Some (tt, initialState).
Proof.
  split; [reflexivity|].
  apply (disabled_follow_selection_ignores_selection sampleCommon
           (fun _ => hostWithUnsaved true) 0 sampleRoot sampleBounds initialState).
  discriminate.
Defined.

Lemma scrolling_range_covers_the_target_witness :
  getVSCodeRange sampleBounds = mkRange (mkPosition 10 4) (mkPosition 12 8)
  /\ getVSCodeRangeForScrolling sampleBounds
     = mkRange (mkPosition 10 0) (mkPosition 12 8)
  /\ contains (getVSCodeRangeForScrolling sampleBounds) (getVSCodeRange sampleBounds)
     = true.
Proof.
  apply (scrolling_range_covers_the_target sampleBounds).
  - vm_compute. discriminate.
  - vm_compute. discriminate.
  - intros Hsame. vm_compute in Hsame. discriminate.
Defined.

Lemma reveal_opens_the_file_and_forces_the_reveal_witness :
  let editor := editorAt "/src/app.js" 0 [] in
  focused (hostOpening editor 2) = true
  /\ revealRangeIfPossible sampleCommon (hostOpening editor) 2 sampleRoot sampleBounds
       false initialState
     = Some (tt,
         elapse 2
           [Exists "//src/app.js";
            ExecuteCommand "vscode.open" (mkUri sampleProject "//src/app.js");
            SetSelection editor (newSelection (mkPosition 10 4) (mkPosition 10 4));
            RevealRange editor (mkRange (mkPosition 10 0) (mkPosition 12 8))
              InCenterIfOutsideViewport] initialState).
Proof.
  intros editor. split; [reflexivity|].
  destruct (reveal_opens_the_file_and_forces_the_reveal sampleCommon
              (hostOpening editor) 0 sampleRoot sampleBounds false initialState editor
              eq_refl eq_refl eq_refl eq_refl)
    as (moves & scrolls & Hrun & _ & Hmoves & _ & Hscrolls).
  assert (Hapart :
            ~ (line (start (selectionRange (selection editor)))
                 <= line (end_ (getVSCodeRangeForScrolling sampleBounds))
               /\ line (start (getVSCodeRangeForScrolling sampleBounds))
                  <= line (end_ (selectionRange (selection editor))))).
  { intros [_ Hbelow]. vm_compute in Hbelow. by apply Hbelow. }
  rewrite Hrun, (Hmoves Hapart), Hscrolls; [reflexivity|].
  intros [Hoverlap _]. by apply Hapart.
Defined.

Lemma reveal_gives_up_when_the_file_is_missing_witness :
  revealRangeIfPossible sampleCommon (fun _ => hostWithoutUnsaved) 1 sampleRoot
    sampleBounds false initialState
  = Some (tt, elapse 11 (attemptsLog "//src/app.js" 5) initialState).
Proof.
  exact (reveal_gives_up_when_the_file_is_missing sampleCommon
           (fun _ => hostWithoutUnsaved) 0 sampleRoot sampleBounds false initialState
           eq_refl eq_refl (fun _ => eq_refl)).
Defined.

(** ** Content saved on the Utopia side *)

Section SavedContent.
Context (cm : Common).

(** X19. When the store reports saved content, the module asks the host
    to revert each resource, in order, and does nothing else: in spite of
    the name [clearDirtyFlags], the dirty set is not touched. A path that
    was dirty stays so through the clean notification of the revert, and
    closing its document afterwards still clears the store's unsaved
    content for it. *)
Theorem saved_content_change_reverts_and_keeps_dirty_flags uris st :
  let reverted :=
    record (map (ExecuteCommand "workbench.action.files.revertResource") uris) st in
  onUtopiaDidChangeSavedContent uris st = Some (tt, reverted)
  /\ dirtyFiles reverted = dirtyFiles st
  /\ incomingFileChanges reverted = incomingFileChanges st
  /\ forall projectID document,
       isUtopiaDocument projectID document = true ->
       isDirty document = false ->
       fromUtopiaURI cm (uri document) ∈ dirtyFiles st ->
       onDidChangeTextDocument cm projectID (mkChangeEvent document) reverted
       = Some (tt, reverted)
       /\ exists st2,
            onDidCloseTextDocument cm projectID document reverted = Some (tt, st2)
            /\ calls st2
               = (calls reverted
                  ++ [ClearFileUnsavedContent (fromUtopiaURI cm (uri document))])%list.
Proof.
  intros reverted. split; [|split; [done|split; [done|]]].
  - unfold onUtopiaDidChangeSavedContent, reverted.
    rewrite (forEach_calls
               (fun uri => [ExecuteCommand "workbench.action.files.revertResource" uri]));
      [|done].
    assert (Hmap : forall l : list Uri,
              flat_map (fun uri =>
                          [ExecuteCommand "workbench.action.files.revertResource" uri]) l
              = map (ExecuteCommand "workbench.action.files.revertResource") l)
      by (induction l as [|u rest IH]; cbn; congruence).
    by rewrite Hmap.
  - intros projectID document Hscheme Hclean Hdirty. split.
    + apply onDidChange_ignored. by right.
    + unfold onDidCloseTextDocument. rewrite Hscheme. run_task.
      rewrite decide_True by done. eexists; split; reflexivity.
Qed.

End SavedContent.
